(** * The EVM precompile bridge of evmos: embedding and properties

    A shallow embedding of
    - [x/evm/keeper/precompiles.go]   (the precompile registry),
    - [app/ante/evm/07_can_transfer.go] (the pre-transfer balance check),
    - [precompiles/erc20/erc20.go]    (the ERC-20 execution bridge:
      [RequiredGas], [Run], [IsTransaction], [HandleMethod]),
    followed by the properties proved about them. *)

From stdpp Require Import gmap strings list fin_maps pretty.
From Stdlib Require Import ZArith Lia.

Local Open Scope Z_scope.
#[local] Set Warnings "-clear-no-such-hyp".

(** ** Common data *)

(** [common.Address]: twenty bytes, read as a 160-bit number. *)
Definition Address : Type := Z.

(** A Go call either returns or panics; [P] is the type of panic values. *)
Inductive Exit (P A : Type) : Type :=
| Returned (a : A)
| Panicked (p : P).
Arguments Returned {P A} a.
Arguments Panicked {P A} p.

(** ** x/evm/keeper/precompiles.go *)

Module Keeper.
Section Registry.

(** [vm.PrecompiledContract] is an interface; the registry only stores and
    hands out its values. *)
Variable PrecompiledContract : Type.

(** The one field of [Keeper] this file reads. *)
Record Keeper : Type := { precompiles : gmap Address PrecompiledContract }.

(** The value passed to [panic]:
    [fmt.Sprintf("precompiled contract not initialized: %s", address)]. *)
Inductive Fault : Type :=
| NotInitialized (address : Address).

(** The body of the [for _, address := range activePrecompiles] loop, with
    the map being filled as accumulator. *)
Fixpoint Precompiles_range (k : Keeper) (activePrecompiles : list Address)
    (activePrecompileMap : gmap Address PrecompiledContract)
  : Exit Fault (gmap Address PrecompiledContract) :=
  match activePrecompiles with
  | [] => Returned activePrecompileMap
  | address :: rest =>
      match precompiles k !! address with
      | None => Panicked (NotInitialized address)
      | Some precompile =>
          Precompiles_range k rest (<[address := precompile]> activePrecompileMap)
      end
  end.

Definition Precompiles (k : Keeper) (activePrecompiles : list Address)
  : Exit Fault (gmap Address PrecompiledContract) :=
  Precompiles_range k activePrecompiles ∅.

(** Go maps are references: [Ref] names a map and the store holds the
    entries of every live map. *)
Definition Ref : Type := positive.

(** [maps.Clone(m)]: a new map, filled with the entries of [m]. *)
Definition Clone (h : gmap Ref (gmap Address PrecompiledContract)) (m : Ref)
  : Ref * gmap Ref (gmap Address PrecompiledContract) :=
  let r := fresh (dom h) in
  (r, <[r := default ∅ (h !! m)]> h).

(** [m[address] = precompile]. *)
Definition assign (h : gmap Ref (gmap Address PrecompiledContract)) (m : Ref)
    (address : Address) (precompile : PrecompiledContract)
  : gmap Ref (gmap Address PrecompiledContract) :=
  <[m := <[address := precompile]> (default ∅ (h !! m))]> h.

(** [PrecompiledContractsBerlin] is the package-level map of the EVM. *)
Definition AvailablePrecompiles (h : gmap Ref (gmap Address PrecompiledContract))
    (PrecompiledContractsBerlin : Ref)
  : Ref * gmap Ref (gmap Address PrecompiledContract) :=
  let '(precompiles, h') := Clone h PrecompiledContractsBerlin in
  (precompiles, h').

End Registry.
Arguments Clone {PrecompiledContract} h m.
Arguments assign {PrecompiledContract} h m address precompile.
Arguments AvailablePrecompiles {PrecompiledContract} h PrecompiledContractsBerlin.
Arguments precompiles {PrecompiledContract} k.
Arguments Precompiles_range {PrecompiledContract} k activePrecompiles activePrecompileMap.
Arguments Precompiles {PrecompiledContract} k activePrecompiles.
End Keeper.

(** ** app/ante/evm/07_can_transfer.go *)

Module Ante.

(** The two registered errors the check wraps. *)
Inductive Sentinel : Type :=
| ErrInsufficientFee
| ErrInsufficientFunds.

(** An argument handed to the [%s] verbs of [Wrapf]: a [*big.Int] (nil or a
    number) or an address. *)
Inductive FmtArg : Type :=
| ABig (x : option Z)
| AAddr (a : Address).

(** [errorsmod.Wrapf(sentinel, format, args...)]. *)
Record error : Type := Wrapf {
  sentinel : Sentinel;
  format : string;
  fmtArgs : list FmtArg
}.

(** The accessors of [core.Message] the check calls. *)
Record Message : Type := {
  From : Address;
  GasFeeCap : Z;
  Value : Z
}.

(** Dereferencing a nil [*big.Int]. *)
Inductive Fault : Type :=
| NilDereference.

(** [x.Cmp(y)] on [*big.Int] with [x] not nil: -1, 0 or +1, and a nil
    dereference when [y] is nil. *)
Definition Cmp (x : Z) (y : option Z) : Exit Fault Z :=
  match y with
  | None => Panicked NilDereference
  | Some y' =>
      Returned (match x ?= y' with Lt => -1 | Eq => 0 | Gt => 1 end)
  end.

(** [x.Sign()]. *)
Definition Sign (x : Z) : Z := Z.sgn x.

Section Check.

(** [sdk.Context] together with the keeper: what [statedb.New] and
    [evmKeeper.NewEVM] build the throwaway EVM from. *)
Variable Context : Type.

(** [*params.ChainConfig] and [evmtypes.Params]: the check only hands them
    on to the EVM. *)
Variables params_ChainConfig evmtypes_Params : Type.

(** [statedb.EVMConfig]. *)
Record EVMConfig : Type := {
  ChainConfig : params_ChainConfig;
  Params : evmtypes_Params;
  CoinBase : Address;
  BaseFee : option Z
}.

(** [evm.Context.CanTransfer(stateDB, from, value)], where [evm] is
    [evmKeeper.NewEVM(ctx, msg, cfg, evmtypes.NewNoOpTracer(), stateDB)] and
    [stateDB] the state handle [statedb.New] makes from the context: the
    answer may depend on the context, the message and the configuration
    the EVM is built from. *)
Variable EVMCanTransfer : Context -> Message -> EVMConfig -> Address -> Z -> bool.

Definition CanTransfer (ctx : Context) (msg : Message) (baseFee : option Z)
    (ethCfg : params_ChainConfig) (params : evmtypes_Params)
    (isLondon : bool) : Exit Fault (option error) :=
  let feeTooLow : Exit Fault bool :=
    if isLondon then
      match Cmp (GasFeeCap msg) baseFee with
      | Panicked p => Panicked p
      | Returned c => Returned (c <? 0)
      end
    else Returned false in
  match feeTooLow with
  | Panicked p => Panicked p
  | Returned true =>
      Returned (Some (Wrapf ErrInsufficientFee
        "max fee per gas less than block base fee (%s < %s)"
        [ABig (Some (GasFeeCap msg)); ABig baseFee]))
  | Returned false =>
      let cfg := {| ChainConfig := ethCfg; Params := params;
                    CoinBase := 0; BaseFee := baseFee |} in
      if (0 <? Sign (Value msg))
         && negb (EVMCanTransfer ctx msg cfg (From msg) (Value msg))
      then
        Returned (Some (Wrapf ErrInsufficientFunds
          "failed to transfer %s from address %s using the EVM block context transfer function"
          [ABig (Some (Value msg)); AAddr (From msg)]))
      else Returned None
  end.

End Check.
Arguments EVMConfig : clear implicits.
Arguments Build_EVMConfig {params_ChainConfig evmtypes_Params}.
Arguments ChainConfig {params_ChainConfig evmtypes_Params} e.
Arguments Params {params_ChainConfig evmtypes_Params} e.
Arguments CoinBase {params_ChainConfig evmtypes_Params} e.
Arguments BaseFee {params_ChainConfig evmtypes_Params} e.
Arguments CanTransfer {Context params_ChainConfig evmtypes_Params}
  EVMCanTransfer ctx msg baseFee ethCfg params isLondon.
End Ante.

(** ** go-ethereum's accounts/abi, as far as the bridge uses it *)

Module abi.

#[global] Instance byte_eq_dec : EqDecision Byte.byte := Byte.byte_eq_dec.

(** [abi.Method]: the name the ABI resolved for the method (overloads get a
    numeric suffix) and its four-byte selector. *)
Record Method : Type := {
  Name : string;
  ID : list Byte.byte
}.

(** [abi.ABI.Methods].  The Go map is ranged over in no fixed order; the
    selectors of one ABI are distinct, so the order does not show. *)
Definition ABI : Type := list Method.

(** [MethodById]: an error ([None]) for less than four bytes and when no
    method has the selector [sigdata[:4]]. *)
Definition MethodById (a : ABI) (sigdata : list Byte.byte) : option Method :=
  if (Z.of_nat (length sigdata) <? 4) then None
  else List.find (fun method => bool_decide (ID method = take 4 sigdata)) a.

End abi.

(** ** The EVM contract object (x/evm/core/vm) *)

Module vm.

Record Contract : Type := {
  CallerAddress : Address;
  value : Z;
  Gas : Z;
  Input : list Byte.byte
}.

(** [contract.Value()]. *)
Definition Value (c : Contract) : Z := value c.

Definition setGas (c : Contract) (g : Z) : Contract :=
  {| CallerAddress := CallerAddress c; value := value c; Gas := g; Input := Input c |}.

(** Modelled from the spec: [Contract.UseGas] is declared in
    x/evm/core/vm/contract.go, which is not under src/.  "If the VM's
    remaining gas is insufficient to cover this cost, fail ...  Otherwise
    deduct the cost from the VM's gas budget." *)
Definition UseGas (c : Contract) (gas : Z) : bool * Contract :=
  if Gas c <? gas then (false, c) else (true, setGas c (Gas c - gas)).

End vm.

(** ** precompiles/erc20/erc20.go *)

Module ERC20.

(** The [const] block of gas costs. *)
Definition GasTransfer : Z := 3000000.
Definition GasApprove : Z := 30956.
Definition GasIncreaseAllowance : Z := 34605.
Definition GasDecreaseAllowance : Z := 34519.
Definition GasName : Z := 3421.
Definition GasSymbol : Z := 3464.
Definition GasDecimals : Z := 427.
Definition GasTotalSupply : Z := 2477.
Definition GasBalanceOf : Z := 2851.
Definition GasAllowance : Z := 3246.
Definition GasMint : Z := 50000.
Definition GasTransferOwnership : Z := 25000.

(** The method-name constants.  They are declared in tx.go, query.go and
    precompiles/authorization, none of which is under src/, so they are
    taken as parameters. *)
Class MethodNames : Type := {
  TransferMethod : string;
  TransferFromMethod : string;
  ApproveMethod : string;
  IncreaseAllowanceMethod : string;
  DecreaseAllowanceMethod : string;
  MintMethod : string;
  BurnMethod : string;
  Burn0Method : string;
  BurnFromMethod : string;
  TransferOwnershipMethod : string;
  NameMethod : string;
  SymbolMethod : string;
  DecimalsMethod : string;
  TotalSupplyMethod : string;
  BalanceOfMethod : string;
  OwnerMethod : string;
  AllowanceMethod : string
}.

(** The names as the ERC-20 ABI of the precompile resolves them: the
    two-argument overload of [burn] is [burn0]. *)
Definition abiNames : MethodNames := {|
  TransferMethod := "transfer";
  TransferFromMethod := "transferFrom";
  ApproveMethod := "approve";
  IncreaseAllowanceMethod := "increaseAllowance";
  DecreaseAllowanceMethod := "decreaseAllowance";
  MintMethod := "mint";
  BurnMethod := "burn";
  Burn0Method := "burn0";
  BurnFromMethod := "burnFrom";
  TransferOwnershipMethod := "transferOwnership";
  NameMethod := "name";
  SymbolMethod := "symbol";
  DecimalsMethod := "decimals";
  TotalSupplyMethod := "totalSupply";
  BalanceOfMethod := "balanceOf";
  OwnerMethod := "owner";
  AllowanceMethod := "allowance"
|}.

(** [[]byte] results and the decoded arguments ([[]interface{}]). *)
Definition bytes : Type := list Byte.byte.

Inductive Arg : Type :=
| VAddress (a : Address)
| VBigInt (z : Z)
| VString (s : string).

(** The errors that cross the bridge.  The first three are built in this
    file; the others come from the handlers and from call setup. *)
Inductive error : Type :=
| ErrCannotReceiveFunds (value : Z)
| ErrUnknownMethod (name : string)
| ErrOutOfGas
| ErrInvalidNumberOfArgs (expected got : Z)
| ErrInvalidAddress (role : string)
| ErrInvalidAmount
| ErrCoinNotPositive (amount : Z) (denom : string)
| ErrInvalidCoins (amount : Z) (denom : string)
| ErrInsufficientAllowance
| ErrSubtractMoreThanAllowance
| ErrTransferAmountExceedsBalance
| ErrBurnAmountExceedsBalance
| ErrMinterIsNotOwner
| ErrSenderIsNotOwner
| ErrOther (msg : string).

(** What a handler can panic with: the ledger's out-of-gas panic, or
    anything else. *)
Inductive Fault : Type :=
| ErrorOutOfGas (descriptor : string)
| OtherFault (msg : string).

(** The embedded [cmn.Precompile], as far as this file reads it. *)
Record Precompile : Type := { ABI : abi.ABI }.

(** [uint64] subtraction. *)
Definition sub64 (a b : Z) : Z := (a - b) mod 2 ^ 64.

Section Names.
Context {names : MethodNames}.

(** The [case] constants of [HandleMethod], in the order of the source. *)
Definition dispatchNames : list string :=
  [ TransferMethod; TransferFromMethod; ApproveMethod; IncreaseAllowanceMethod;
    DecreaseAllowanceMethod; MintMethod; BurnMethod; BurnFromMethod;
    TransferOwnershipMethod; NameMethod; SymbolMethod; DecimalsMethod;
    TotalSupplyMethod; BalanceOfMethod; OwnerMethod; AllowanceMethod ].

Definition RequiredGas (p : Precompile) (input : bytes) : Z :=
  if Z.of_nat (length input) <? 4 then 0
  else
    let methodID := take 4 input in
    match abi.MethodById (ABI p) methodID with
    | None => 0
    | Some method =>
        let name := abi.Name method in
        if String.eqb name TransferMethod then GasTransfer
        else if String.eqb name TransferFromMethod then GasTransfer
        else if String.eqb name ApproveMethod then GasApprove
        else if String.eqb name IncreaseAllowanceMethod then GasIncreaseAllowance
        else if String.eqb name DecreaseAllowanceMethod then GasDecreaseAllowance
        else if String.eqb name MintMethod then GasMint
        else if String.eqb name BurnMethod then GasTransfer
        else if String.eqb name BurnFromMethod then GasTransfer
        else if String.eqb name TransferOwnershipMethod then GasTransferOwnership
        else if String.eqb name NameMethod then GasName
        else if String.eqb name SymbolMethod then GasSymbol
        else if String.eqb name DecimalsMethod then GasDecimals
        else if String.eqb name TotalSupplyMethod then GasTotalSupply
        else if String.eqb name BalanceOfMethod then GasBalanceOf
        else if String.eqb name AllowanceMethod then GasAllowance
        else 0
    end.

Definition IsTransaction (method : abi.Method) : bool :=
  let name := abi.Name method in
  if String.eqb name TransferMethod
     || String.eqb name TransferFromMethod
     || String.eqb name ApproveMethod
     || String.eqb name IncreaseAllowanceMethod
     || String.eqb name DecreaseAllowanceMethod
     || String.eqb name MintMethod
     || String.eqb name BurnMethod
     || String.eqb name BurnFromMethod
     || String.eqb name TransferOwnershipMethod
  then true
  else false.

(** The gas schedule as [TestRequiredGas] tabulates it: the expected cost
    per method name, in the order of the test cases. *)
Definition gasTable : list (string * Z) :=
  [ (BalanceOfMethod, GasBalanceOf);
    (DecimalsMethod, GasDecimals);
    (NameMethod, GasName);
    (SymbolMethod, GasSymbol);
    (TotalSupplyMethod, GasTotalSupply);
    (ApproveMethod, GasApprove);
    (IncreaseAllowanceMethod, GasIncreaseAllowance);
    (DecreaseAllowanceMethod, GasDecreaseAllowance);
    (TransferMethod, GasTransfer);
    (TransferFromMethod, GasTransfer);
    (AllowanceMethod, GasAllowance);
    (MintMethod, GasMint);
    (BurnMethod, GasTransfer);
    (BurnFromMethod, GasTransfer);
    (TransferOwnershipMethod, GasTransferOwnership) ].

(** The cost the table records for a method name, if any. *)
Definition gasCost (name : string) : option Z :=
  snd <$> List.find (fun entry => String.eqb name (fst entry)) gasTable.

End Names.

Section Bridge.
Context {names : MethodNames}.

(** [Ledger] stands for everything behind [sdk.Context], the EVM and its
    [StateDB] (stores, gas meter, journal); [Snapshot] for the checkpoint
    call setup opens.  The contract object is passed by pointer, so it
    travels with the ledger. *)
Context {Ledger Snapshot : Type}.

Definition State : Type := Ledger * vm.Contract.

(** The [(bz []byte, err error)] pair of a handler and of [Run]. *)
Definition Result : Type := Exit Fault (option bytes * option error).

Definition Handler : Type := State -> abi.Method -> list Arg -> Result * State.

(** What [RunSetup] hands back besides the context and the state handle. *)
Record Setup : Type := {
  snapshot : Snapshot;
  method : abi.Method;
  initialGas : Z;
  args : list Arg
}.

(** The functions [Run] and [HandleMethod] call that are defined outside
    erc20.go (precompiles/common, tx.go, query.go, approve.go), taken as
    parameters. *)
Class Collaborators : Type := {
  (** [ctx.GasMeter().GasConsumed()] *)
  GasConsumed : Ledger -> Z;
  RunSetup : State -> bool -> (abi.Method -> bool) -> Exit Fault (error + Setup) * State;
  AddJournalEntries : State -> Snapshot -> Exit Fault (option error) * State;
  (** what the deferred [cmn.HandleGasError] does to the state when it
      recovers an out-of-gas panic *)
  recoverGasError : State -> Z -> State;
  Transfer : Handler;
  TransferFrom : Handler;
  Approve : Handler;
  IncreaseAllowance : Handler;
  DecreaseAllowance : Handler;
  Mint : Handler;
  ExecuteBurn : Handler;
  BurnFrom : Handler;
  TransferOwnership : Handler;
  Name : Handler;
  Symbol : Handler;
  Decimals : Handler;
  TotalSupply : Handler;
  BalanceOf : Handler;
  Owner : Handler;
  Allowance : Handler
}.

Context {collab : Collaborators}.

Definition HandleMethod (st : State) (method : abi.Method) (args : list Arg)
  : Result * State :=
  let name := abi.Name method in
  if String.eqb name TransferMethod then Transfer st method args
  else if String.eqb name TransferFromMethod then TransferFrom st method args
  else if String.eqb name ApproveMethod then Approve st method args
  else if String.eqb name IncreaseAllowanceMethod then IncreaseAllowance st method args
  else if String.eqb name DecreaseAllowanceMethod then DecreaseAllowance st method args
  else if String.eqb name MintMethod then Mint st method args
  else if String.eqb name BurnMethod then ExecuteBurn st method args
  else if String.eqb name BurnFromMethod then BurnFrom st method args
  else if String.eqb name TransferOwnershipMethod then TransferOwnership st method args
  else if String.eqb name NameMethod then Name st method args
  else if String.eqb name SymbolMethod then Symbol st method args
  else if String.eqb name DecimalsMethod then Decimals st method args
  else if String.eqb name TotalSupplyMethod then TotalSupply st method args
  else if String.eqb name BalanceOfMethod then BalanceOf st method args
  else if String.eqb name OwnerMethod then Owner st method args
  else if String.eqb name AllowanceMethod then Allowance st method args
  else (Returned (None, Some (ErrUnknownMethod name)), st).

(** Modelled from the spec: [cmn.HandleGasError] is declared in
    precompiles/common, which is not under src/.  "An out-of-gas condition
    originating from the underlying ledger logic is converted into a
    VM-level out of gas signal rather than an uncaught fault."  [bz] is the
    named result of [Run] at the moment of the panic; any other panic goes
    on unwinding.  On an exit without a panic there is nothing to convert,
    and [Run] applies it to the panicking exits only. *)
Definition HandleGasError (initialGas : Z) (bz : option bytes) (f : Fault)
    (st : State) : Result * State :=
  match f with
  | ErrorOutOfGas _ => (Returned (bz, Some ErrOutOfGas), recoverGasError st initialGas)
  | OtherFault _ => (Panicked f, st)
  end.

Definition Run (st : State) (readOnly : bool) : Result * State :=
  let contract := snd st in
  if Z.sgn (vm.Value contract) =? 1 then
    (Returned (None, Some (ErrCannotReceiveFunds (vm.Value contract))), st)
  else
    match RunSetup st readOnly IsTransaction with
    | (Panicked f, st1) => (Panicked f, st1)
    | (Returned (inl err), st1) => (Returned (None, Some err), st1)
    | (Returned (inr s), st1) =>
        match HandleMethod st1 (method s) (args s) with
        | (Panicked f, st2) => HandleGasError (initialGas s) None f st2
        | (Returned (_, Some err), st2) => (Returned (None, Some err), st2)
        | (Returned (bz, None), st2) =>
            let cost := sub64 (GasConsumed (fst st2)) (initialGas s) in
            match vm.UseGas (snd st2) cost with
            | (false, contract') =>
                (Returned (None, Some ErrOutOfGas), (fst st2, contract'))
            | (true, contract') =>
                match AddJournalEntries (fst st2, contract') (snapshot s) with
                | (Panicked f, st3) => HandleGasError (initialGas s) bz f st3
                | (Returned (Some err), st3) => (Returned (None, Some err), st3)
                | (Returned None, st3) => (Returned (bz, None), st3)
                end
            end
        end
    end.

End Bridge.
Arguments Setup : clear implicits.
Arguments Collaborators : clear implicits.
Arguments State : clear implicits.
Arguments Handler : clear implicits.

End ERC20.

(** ** The transaction handlers (precompiles/erc20/tx.go) *)

Module Tx.
Import ERC20.

(** A spending grant of the authorization module: the remaining limit in the
    bound denomination and the optional expiration time. *)
Record Grant : Type := {
  spendLimit : Z;
  expiration : option Z
}.

(** The ledger state the handlers read and write: bank balances per account
    and denomination, grants per (granter, grantee), the block time and the
    registered owner of the token pair. *)
Record Ledger : Type := {
  balances : gmap (Address * string) Z;
  grants : gmap (Address * Address) Grant;
  blockTime : Z;
  owner : Address
}.

Definition setBalances (l : Ledger) (b : gmap (Address * string) Z) : Ledger :=
  {| balances := b; grants := grants l; blockTime := blockTime l; owner := owner l |}.

Definition setGrants (l : Ledger) (g : gmap (Address * Address) Grant) : Ledger :=
  {| balances := balances l; grants := g; blockTime := blockTime l; owner := owner l |}.

Definition GetBalance (l : Ledger) (a : Address) (denom : string) : Z :=
  default 0 (balances l !! (a, denom)).

(** Handlers run in a state-and-error monad over the ledger: a failing step
    stops the handler and leaves the ledger as it was at that step. *)
Definition M (A : Type) : Type := Ledger -> (error + A) * Ledger.

Definition ret {A} (a : A) : M A := fun l => (inr a, l).
Definition fail {A} (e : error) : M A := fun l => (inl e, l).
Definition bind {A B} (m : M A) (k : A -> M B) : M B :=
  fun l => match m l with
           | (inl e, l') => (inl e, l')
           | (inr a, l') => k a l'
           end.
Definition get : M Ledger := fun l => (inr l, l).
Definition put (l : Ledger) : M unit := fun _ => (inr tt, l).
Definition lift {A} (r : error + A) : M A := fun l => (r, l).

Notation "'do' x <- m ; k" := (bind m (fun x => k))
  (at level 10, x name, m at level 100, k at level 200).
Notation "'exec' m ; k" := (bind m (fun _ => k))
  (at level 10, m at level 100, k at level 200).

(** [method.Outputs.Pack(true)]: one 32-byte word holding 1. *)
Definition packTrue : bytes := replicate 31 Byte.x00 ++ [Byte.x01].

(** [sdk.Coin.String()]: the amount in decimal, then the denomination. *)
Definition coinString (amount : Z) (denom : string) : string :=
  pretty amount +:+ denom.

(** [err.Error()] of the two errors about a coin, with the texts tx_test.go
    quotes: "coin -1xmpl amount is not positive" in [TestTransfer] and
    [TestTransferFrom], "-1xmpl: invalid coins" in [TestMint]. *)
Definition coinErrorText (e : error) : option string :=
  match e with
  | ErrCoinNotPositive amount denom =>
      Some ("coin " +:+ coinString amount denom +:+ " amount is not positive")
  | ErrInvalidCoins amount denom =>
      Some (coinString amount denom +:+ ": invalid coins")
  | _ => None
  end.


Section Handlers.

(** The denomination the precompile instance is bound to. *)
Variable denom : string.

(** *** Argument parsing: count, then addresses, then the amount *)

Definition ParseTransferArgs (args : list Arg) : error + (Address * Z) :=
  match args with
  | [a0; a1] =>
      match a0 with
      | VAddress to =>
          match a1 with
          | VBigInt amount => inr (to, amount)
          | _ => inl ErrInvalidAmount
          end
      | _ => inl (ErrInvalidAddress "to")
      end
  | _ => inl (ErrInvalidNumberOfArgs 2 (Z.of_nat (length args)))
  end.

Definition ParseTransferFromArgs (args : list Arg) : error + (Address * Address * Z) :=
  match args with
  | [a0; a1; a2] =>
      match a0 with
      | VAddress from =>
          match a1 with
          | VAddress to =>
              match a2 with
              | VBigInt amount => inr (from, to, amount)
              | _ => inl ErrInvalidAmount
              end
          | _ => inl (ErrInvalidAddress "to")
          end
      | _ => inl (ErrInvalidAddress "from")
      end
  | _ => inl (ErrInvalidNumberOfArgs 3 (Z.of_nat (length args)))
  end.

(** One address (its role names it in the error) and one amount. *)
Definition ParseAddressAmountArgs (role : string) (args : list Arg)
  : error + (Address * Z) :=
  match args with
  | [a0; a1] =>
      match a0 with
      | VAddress a =>
          match a1 with
          | VBigInt amount => inr (a, amount)
          | _ => inl ErrInvalidAmount
          end
      | _ => inl (ErrInvalidAddress role)
      end
  | _ => inl (ErrInvalidNumberOfArgs 2 (Z.of_nat (length args)))
  end.

(** *** Ledger steps *)

(** "zero or negative: amount is not positive, framed as a
    denomination-qualified error" ([coin <amount><denom> amount is not
    positive]). *)
Definition checkPositive (amount : Z) : M unit :=
  if amount <=? 0 then fail (ErrCoinNotPositive amount denom) else ret tt.

Definition expired (l : Ledger) (g : Grant) : bool :=
  match expiration g with
  | None => false
  | Some t => t <=? blockTime l
  end.

(** Consume [amount] of the grant from [granter] to [grantee]: it must
    exist, be unexpired and cover the amount; its limit is decremented. *)
Definition spendAllowance (insufficient : error) (granter grantee : Address)
    (amount : Z) : M unit :=
  do l <- get;
  match grants l !! (granter, grantee) with
  | None => fail insufficient
  | Some g =>
      if expired l g then fail insufficient
      else if spendLimit g <? amount then fail insufficient
      else put (setGrants l
                  (<[(granter, grantee) :=
                       {| spendLimit := spendLimit g - amount;
                          expiration := expiration g |}]> (grants l)))
  end.

Definition subBalance (a : Address) (amount : Z) : M unit :=
  do l <- get;
  put (setBalances l (<[(a, denom) := GetBalance l a denom - amount]> (balances l))).

Definition addBalance (a : Address) (amount : Z) : M unit :=
  do l <- get;
  put (setBalances l (<[(a, denom) := GetBalance l a denom + amount]> (balances l))).

(** The bank's move between accounts: the sender is debited, then the
    recipient is credited. *)
Definition send (from to : Address) (amount : Z) : M unit :=
  do l <- get;
  if GetBalance l from denom <? amount then fail ErrTransferAmountExceedsBalance
  else exec subBalance from amount; addBalance to amount.

(** Burning takes the coins out of the account's balance. *)
Definition burnCoins (from : Address) (amount : Z) : M unit :=
  do l <- get;
  if GetBalance l from denom <? amount then fail ErrBurnAmountExceedsBalance
  else subBalance from amount.

(** *** The handlers

    Modelled from the spec: tx.go, which declares [Transfer],
    [TransferFrom], [Mint] and [BurnFrom], is not under src/.  The order of
    the checks is the one of section 4.3: argument count, address
    arguments, amount arguments (malformed, then zero or negative), then
    the business rules (ownership, allowance, balance).  The spec leaves
    two things open that tx_test.go settles: [TestMint] expects the text
    "-1xmpl: invalid coins" from the owner minting -1, where [TestTransfer]
    expects "coin -1xmpl amount is not positive"; and [TestBurnFrom]
    expects the allowance error also when the caller burns from its own
    account.  [Burn] and [Burn0] are not modelled: [TestBurn] calls [Burn]
    with an amount and also with an address and an amount, and what the
    second call does is in neither the spec nor the test. *)

Definition Transfer (contract : vm.Contract) (method : abi.Method)
    (args : list Arg) : M bytes :=
  do p <- lift (ParseTransferArgs args);
  let '(to, amount) := p in
  exec checkPositive amount;
  exec send (vm.CallerAddress contract) to amount;
  ret packTrue.

Definition TransferFrom (contract : vm.Contract) (method : abi.Method)
    (args : list Arg) : M bytes :=
  do p <- lift (ParseTransferFromArgs args);
  let '(from, to, amount) := p in
  let spender := vm.CallerAddress contract in
  exec checkPositive amount;
  exec (if bool_decide (spender = from) then ret tt
        else spendAllowance ErrInsufficientAllowance from spender amount);
  exec send from to amount;
  ret packTrue.

(** "Amount must be a valid positive ledger amount": the coins of a mint
    that are not are refused as [<amount><denom>: invalid coins]. *)
Definition checkValidCoins (amount : Z) : M unit :=
  if amount <=? 0 then fail (ErrInvalidCoins amount denom) else ret tt.

Definition Mint (contract : vm.Contract) (method : abi.Method)
    (args : list Arg) : M bytes :=
  do p <- lift (ParseAddressAmountArgs "to" args);
  let '(to, amount) := p in
  exec checkValidCoins amount;
  do l <- get;
  if bool_decide (vm.CallerAddress contract = owner l) then
    exec addBalance to amount; ret []
  else fail ErrMinterIsNotOwner.

Definition BurnFrom (contract : vm.Contract) (method : abi.Method)
    (args : list Arg) : M bytes :=
  do p <- lift (ParseAddressAmountArgs "from" args);
  let '(from, amount) := p in
  exec checkPositive amount;
  exec spendAllowance ErrSubtractMoreThanAllowance from (vm.CallerAddress contract) amount;
  exec burnCoins from amount;
  ret [].

End Handlers.
End Tx.

(** ** A reference instance of the bridge

    A concrete ABI, ledger and set of collaborators on which the bridge
    runs; the worked examples below are stated on it. *)

Module Reference.
Import ERC20.

(** The methods of the ERC-20 precompile with the selectors of their
    signatures; [burn0] is [burn(address,uint256)]. *)
Definition erc20ABI : abi.ABI :=
  let m n (id : list Byte.byte) := {| abi.Name := n; abi.ID := id |} in
  [ m "name" [Byte.x06; Byte.xfd; Byte.xde; Byte.x03];
    m "symbol" [Byte.x95; Byte.xd8; Byte.x9b; Byte.x41];
    m "decimals" [Byte.x31; Byte.x3c; Byte.xe5; Byte.x67];
    m "totalSupply" [Byte.x18; Byte.x16; Byte.x0d; Byte.xdd];
    m "balanceOf" [Byte.x70; Byte.xa0; Byte.x82; Byte.x31];
    m "allowance" [Byte.xdd; Byte.x62; Byte.xed; Byte.x3e];
    m "owner" [Byte.x8d; Byte.xa5; Byte.xcb; Byte.x5b];
    m "transfer" [Byte.xa9; Byte.x05; Byte.x9c; Byte.xbb];
    m "transferFrom" [Byte.x23; Byte.xb8; Byte.x72; Byte.xdd];
    m "approve" [Byte.x09; Byte.x5e; Byte.xa7; Byte.xb3];
    m "increaseAllowance" [Byte.x39; Byte.x50; Byte.x93; Byte.x51];
    m "decreaseAllowance" [Byte.xa4; Byte.x57; Byte.xc2; Byte.xd7];
    m "mint" [Byte.x40; Byte.xc1; Byte.x0f; Byte.x19];
    m "burn" [Byte.x42; Byte.x96; Byte.x6c; Byte.x68];
    m "burn0" [Byte.x9d; Byte.xc2; Byte.x9f; Byte.xac];
    m "burnFrom" [Byte.x79; Byte.xcc; Byte.x67; Byte.x90];
    m "transferOwnership" [Byte.xf2; Byte.xfd; Byte.xe3; Byte.x8b] ].

Definition precompile : Precompile := {| ABI := erc20ABI |}.

(** The ledger of the reference instance: the handlers' ledger and the
    reading of the gas meter. *)
Definition RefLedger : Type := Tx.Ledger * Z.

(** A handler of tx.go as a handler of the bridge; it charges [gas] to the
    meter, and panics as the ledger's meter does when [limit] is passed. *)
Definition ofTx (limit gas : Z)
    (h : vm.Contract -> abi.Method -> list Arg -> Tx.M bytes)
  : Handler RefLedger :=
  fun st method args =>
    let '((l, consumed), contract) := st in
    if limit <? consumed + gas then
      (Panicked (ErrorOutOfGas "handler"), ((l, limit), contract))
    else
      match h contract method args l with
      | (inl e, l') => (Returned (None, Some e), ((l', consumed + gas), contract))
      | (inr bz, l') => (Returned (Some bz, None), ((l', consumed + gas), contract))
      end.

(** A query that answers with fixed bytes. *)
Definition constant (bz : bytes) : vm.Contract -> abi.Method -> list Arg -> Tx.M bytes :=
  fun _ _ _ => Tx.ret bz.

Definition unsupported : vm.Contract -> abi.Method -> list Arg -> Tx.M bytes :=
  fun _ _ _ => Tx.fail (ErrOther "not part of the reference instance").

(** Call setup of the reference instance: the method is looked up by the
    first four bytes of the input, a transaction is refused in read-only
    mode, the snapshot is the ledger at entry and no argument is decoded. *)
Definition refRunSetup (st : State RefLedger) (readOnly : bool)
    (isTransaction : abi.Method -> bool)
  : Exit Fault (error + Setup Tx.Ledger) * State RefLedger :=
  let '((l, consumed), contract) := st in
  match abi.MethodById erc20ABI (vm.Input contract) with
  | None => (Returned (inl (ErrOther "no method with id")), st)
  | Some m =>
      if readOnly && isTransaction m then
        (Returned (inl (ErrOther "write protection")), st)
      else
        (Returned (inr {| snapshot := l; method := m;
                          initialGas := consumed; args := [] |}), st)
  end.

Definition refCollaborators (limit : Z) : Collaborators RefLedger Tx.Ledger := {|
  GasConsumed := snd;
  RunSetup := refRunSetup;
  AddJournalEntries := fun st _ => (Returned None, st);
  recoverGasError := fun st _ => st;
  Transfer := ofTx limit 100 (Tx.Transfer "xmpl");
  TransferFrom := ofTx limit 100 (Tx.TransferFrom "xmpl");
  Approve := ofTx limit 100 unsupported;
  IncreaseAllowance := ofTx limit 100 unsupported;
  DecreaseAllowance := ofTx limit 100 unsupported;
  Mint := ofTx limit 100 (Tx.Mint "xmpl");
  ExecuteBurn := ofTx limit 100 unsupported;
  BurnFrom := ofTx limit 100 (Tx.BurnFrom "xmpl");
  TransferOwnership := ofTx limit 100 unsupported;
  Name := ofTx limit 10 (constant [Byte.x78]);
  Symbol := ofTx limit 10 (constant [Byte.x78]);
  Decimals := ofTx limit 10 (constant [Byte.x12]);
  TotalSupply := ofTx limit 10 (constant []);
  BalanceOf := ofTx limit 10 unsupported;
  Owner := ofTx limit 10 unsupported;
  Allowance := ofTx limit 10 unsupported
|}.

(** An empty ledger owned by account 1, and a call of [name()] by
    account 2 with [gas] left and [value] attached. *)
Definition emptyLedger : Tx.Ledger :=
  {| Tx.balances := ∅; Tx.grants := ∅; Tx.blockTime := 0; Tx.owner := 1 |}.

Definition call (selector : list Byte.byte) (value gas : Z) : vm.Contract :=
  {| vm.CallerAddress := 2; vm.value := value; vm.Gas := gas; vm.Input := selector |}.

Definition nameSelector : list Byte.byte := [Byte.x06; Byte.xfd; Byte.xde; Byte.x03].
Definition ownerSelector : list Byte.byte := [Byte.x8d; Byte.xa5; Byte.xcb; Byte.x5b].
Definition burn0Selector : list Byte.byte := [Byte.x9d; Byte.xc2; Byte.x9f; Byte.xac].

(** A registry with two implementations, named by strings. *)
Definition registry : Keeper.Keeper string :=
  {| Keeper.precompiles := <[1 := "ecrecover"]> (<[2 := "sha256"]> ∅) |}.

(** A message from account 7, and a sender that can move at most 100. *)
Definition canMove (_ : unit) (_ : Ante.Message) (_ : Ante.EVMConfig unit unit)
    (_ : Address) (value : Z) : bool := value <=? 100.

Definition message (feeCap value : Z) : Ante.Message :=
  {| Ante.From := 7; Ante.GasFeeCap := feeCap; Ante.Value := value |}.

Definition nameMethod : abi.Method := {| abi.Name := "name"; abi.ID := nameSelector |}.
Definition mintMethod : abi.Method :=
  {| abi.Name := "mint"; abi.ID := [Byte.x40; Byte.xc1; Byte.x0f; Byte.x19] |}.
Definition burn0Method : abi.Method := {| abi.Name := "burn0"; abi.ID := burn0Selector |}.

(** Account 1 owns the pair and holds 1000 xmpl; account 2 may spend 300
    of them. *)
Definition funded : Tx.Ledger :=
  {| Tx.balances := <[(1, "xmpl") := 1000]> ∅;
     Tx.grants := <[(1, 2) := {| Tx.spendLimit := 300; Tx.expiration := None |}]> ∅;
     Tx.blockTime := 0;
     Tx.owner := 1 |}.

Definition by_ (caller : Address) : vm.Contract :=
  {| vm.CallerAddress := caller; vm.value := 0; vm.Gas := 0; vm.Input := [] |}.

(** The maps that are live when the keeper is set up: the Berlin set of the
    EVM, under reference 1. *)
Definition liveMaps : gmap Keeper.Ref (gmap Address string) :=
  {[ 1%positive := Keeper.precompiles registry ]}.

(** A selector of no method, and the methods and selectors of [burn] and
    [transfer]. *)
Definition unknownSelector : list Byte.byte := [Byte.x00; Byte.x00; Byte.x00; Byte.x00].
Definition burnSelector : list Byte.byte := [Byte.x42; Byte.x96; Byte.x6c; Byte.x68].
Definition burnMethod : abi.Method := {| abi.Name := "burn"; abi.ID := burnSelector |}.
Definition transferSelector : list Byte.byte := [Byte.xa9; Byte.x05; Byte.x9c; Byte.xbb].
Definition transferMethod : abi.Method :=
  {| abi.Name := "transfer"; abi.ID := transferSelector |}.

(** The accounts of the test suite of tx_test.go: the keyring keys 0 and 1
    and [toAddr]. *)
Definition key0 : Address := 1.
Definition key1 : Address := 2.
Definition toAddr : Address := 3.

(** The ledger a test starts from: no balance, no grant, block time 0 and
    the token pair owned by [pairOwner]. *)
Definition suiteLedger (pairOwner : Address) : Tx.Ledger :=
  {| Tx.balances := ∅; Tx.grants := ∅; Tx.blockTime := 0; Tx.owner := pairOwner |}.

(** [MintCoins] to the module, then [SendCoinsFromModuleToAccount]. *)
Definition prefund (a : Address) (amount : Z) (l : Tx.Ledger) : Tx.Ledger :=
  snd (Tx.addBalance "xmpl" a amount l).

(** [SaveGrant] with a spend limit, expiring in an hour. *)
Definition saveGrant (granter grantee : Address) (limit : Z) (l : Tx.Ledger)
  : Tx.Ledger :=
  Tx.setGrants l
    (<[(granter, grantee) := {| Tx.spendLimit := limit;
                                Tx.expiration := Some 3600 |}]> (Tx.grants l)).

Definition transferFromMethod : abi.Method :=
  {| abi.Name := "transferFrom";
     abi.ID := [Byte.x23; Byte.xb8; Byte.x72; Byte.xdd] |}.
Definition burnFromMethod : abi.Method :=
  {| abi.Name := "burnFrom"; abi.ID := [Byte.x79; Byte.xcc; Byte.x67; Byte.x90] |}.

End Reference.

(** * Properties *)

(** ** The precompile registry *)

Section RegistryProperties.
Context {PrecompiledContract : Type}.
Implicit Types (k : Keeper.Keeper PrecompiledContract) (active : list Address).
Implicit Types (acc : gmap Address PrecompiledContract).

(** When every requested address is registered the loop runs to its end:
    the requested addresses are added to the accumulator, each with its
    registered implementation, and nothing else changes. *)
Lemma Precompiles_range_registered k active acc :
  (∀ a, a ∈ active → is_Some (Keeper.precompiles k !! a)) →
  ∃ m, Keeper.Precompiles_range k active acc = Returned m
       ∧ dom m = list_to_set active ∪ dom acc
       ∧ (∀ a, a ∈ active → m !! a = Keeper.precompiles k !! a)
       ∧ (∀ a, a ∉ active → m !! a = acc !! a).
Proof.
  revert acc. induction active as [|address rest IH]; intros acc Hreg; simpl.
  - exists acc. split; [done|]. split; [set_solver|]. split; [|done].
    intros a Ha. by apply elem_of_nil in Ha.
  - destruct (Hreg address) as [p Hp]; [set_solver|]. rewrite Hp.
    destruct (IH (<[address:=p]> acc)) as (m & Hrun & Hdom & Hin & Hout).
    { intros a Ha. apply Hreg. set_solver. }
    exists m. split; [done|]. split.
    { rewrite Hdom, dom_insert_L. set_solver. }
    split.
    + intros a Ha. destruct (decide (a ∈ rest)) as [Hr|Hr]; [by apply Hin|].
      assert (a = address) as -> by set_solver.
      rewrite (Hout _ Hr), lookup_insert_eq. done.
    + intros a Ha. apply not_elem_of_cons in Ha as [Hne Hr].
      rewrite (Hout _ Hr). by rewrite lookup_insert_ne.
Qed.

(** When some requested address is not registered the loop panics at the
    first such address. *)
Lemma Precompiles_range_unregistered k active acc :
  (∃ a, a ∈ active ∧ Keeper.precompiles k !! a = None) →
  ∃ a, a ∈ active ∧ Keeper.precompiles k !! a = None
       ∧ Keeper.Precompiles_range k active acc = Panicked (Keeper.NotInitialized a).
Proof.
  revert acc. induction active as [|address rest IH]; intros acc (a & Ha & Hnone).
  - by apply elem_of_nil in Ha.
  - simpl. destruct (Keeper.precompiles k !! address) as [p|] eqn:Hp.
    + destruct (IH (<[address:=p]> acc)) as (b & Hb & Hbn & Hrun).
      { exists a. split; [|done]. apply elem_of_cons in Ha as [->|]; [congruence|done]. }
      exists b. split; [set_solver|]. done.
    + exists address. split; [set_solver|]. done.
Qed.

(** C9: [Keeper.Precompiles] panics when a requested address has no
    registered implementation, naming such an address; otherwise it
    returns a map whose keys are exactly the requested addresses, each
    mapped to its registered implementation. *)
Theorem Precompiles_panics_or_returns_requested k active :
  ((∃ a, a ∈ active ∧ Keeper.precompiles k !! a = None) →
   ∃ a, a ∈ active ∧ Keeper.precompiles k !! a = None
        ∧ Keeper.Precompiles k active = Panicked (Keeper.NotInitialized a))
  ∧
  ((∀ a, a ∈ active → is_Some (Keeper.precompiles k !! a)) →
   ∃ m, Keeper.Precompiles k active = Returned m
        ∧ dom m = list_to_set active
        ∧ ∀ a, a ∈ active → m !! a = Keeper.precompiles k !! a).
Proof.
  split.
  - apply Precompiles_range_unregistered.
  - intros Hreg.
    destruct (Precompiles_range_registered k active ∅ Hreg) as (m & Hrun & Hdom & Hin & _).
    exists m. split; [done|]. split; [|done].
    rewrite Hdom, dom_empty_L. set_solver.
Qed.

End RegistryProperties.

(** ** The pre-transfer balance check *)

Section CanTransferProperties.
Context {Context params_ChainConfig evmtypes_Params : Type}.
Context (EVMCanTransfer :
           Context -> Ante.Message ->
           Ante.EVMConfig params_ChainConfig evmtypes_Params ->
           Address -> Z -> bool).
Implicit Types (ctx : Context) (msg : Ante.Message) (baseFee : option Z).
Implicit Types (ethCfg : params_ChainConfig) (params : evmtypes_Params).

(** The comparison of the fee cap with a base fee that is there. *)
Lemma Cmp_lt x y : Ante.Cmp x (Some y) = Returned (if x <? y then -1 else if x =? y then 0 else 1).
Proof.
  unfold Ante.Cmp. destruct (Z.compare_spec x y) as [->|Hlt|Hgt].
  - by rewrite Z.ltb_irrefl, Z.eqb_refl.
  - by rewrite (proj2 (Z.ltb_lt _ _) Hlt).
  - rewrite (proj2 (Z.ltb_ge _ _)) by lia. by rewrite (proj2 (Z.eqb_neq _ _)) by lia.
Qed.

(** The check faults only when the fee floor is active without a base
    fee. *)
Lemma CanTransfer_returns ctx msg baseFee ethCfg params isLondon :
  (isLondon = true → baseFee ≠ None) →
  ∃ r, Ante.CanTransfer EVMCanTransfer ctx msg baseFee ethCfg params isLondon
       = Returned r.
Proof.
  intros Hbase. unfold Ante.CanTransfer.
  destruct isLondon; [destruct baseFee as [b|]; [|by destruct Hbase]|].
  - rewrite Cmp_lt. repeat case_match; eauto.
  - repeat case_match; eauto.
Qed.

(** C8: with [feeTooLow] for "the fee floor is active and the fee cap is
    below the base fee" and [cannotCover] for "the value is positive and
    the EVM's transfer predicate refuses it", [CanTransfer] returns the
    insufficient-fee error quoting the fee cap and the base fee exactly
    when [feeTooLow]; otherwise the insufficient-funds error naming the
    value and the sender exactly when [cannotCover]; otherwise nil. *)
Theorem CanTransfer_fee_then_funds_then_nil ctx msg baseFee ethCfg params isLondon :
  (isLondon = true → baseFee ≠ None) →
  let result :=
    Ante.CanTransfer EVMCanTransfer ctx msg baseFee ethCfg params isLondon in
  let cfg :=
    {| Ante.ChainConfig := ethCfg; Ante.Params := params;
       Ante.CoinBase := 0; Ante.BaseFee := baseFee |} in
  let feeTooLow :=
    isLondon = true ∧ ∃ b, baseFee = Some b ∧ Ante.GasFeeCap msg < b in
  let cannotCover :=
    0 < Ante.Value msg
    ∧ EVMCanTransfer ctx msg cfg (Ante.From msg) (Ante.Value msg) = false in
  (result = Returned (Some (Ante.Wrapf Ante.ErrInsufficientFee
               "max fee per gas less than block base fee (%s < %s)"
               [Ante.ABig (Some (Ante.GasFeeCap msg)); Ante.ABig baseFee]))
   ↔ feeTooLow)
  ∧ (¬ feeTooLow →
     (result = Returned (Some (Ante.Wrapf Ante.ErrInsufficientFunds
                 "failed to transfer %s from address %s using the EVM block context transfer function"
                 [Ante.ABig (Some (Ante.Value msg)); Ante.AAddr (Ante.From msg)]))
      ↔ cannotCover))
  ∧ (¬ feeTooLow → ¬ cannotCover → result = Returned None).
Proof.
  intros Hbase result cfg feeTooLow cannotCover.
  assert (Hfunds : (0 <? Ante.Sign (Ante.Value msg)) = true ↔ 0 < Ante.Value msg).
  { unfold Ante.Sign. rewrite Z.ltb_lt. lia. }
  assert (Hfee : feeTooLow →
    result = Returned (Some (Ante.Wrapf Ante.ErrInsufficientFee
               "max fee per gas less than block base fee (%s < %s)"
               [Ante.ABig (Some (Ante.GasFeeCap msg)); Ante.ABig baseFee]))).
  { intros (-> & b & -> & Hlt). subst result. unfold Ante.CanTransfer.
    rewrite Cmp_lt, (proj2 (Z.ltb_lt _ _) Hlt). done. }
  assert (Hrest : ¬ feeTooLow →
    result = if (0 <? Ante.Sign (Ante.Value msg))
                && negb (EVMCanTransfer ctx msg cfg (Ante.From msg) (Ante.Value msg))
             then Returned (Some (Ante.Wrapf Ante.ErrInsufficientFunds
                 "failed to transfer %s from address %s using the EVM block context transfer function"
                 [Ante.ABig (Some (Ante.Value msg)); Ante.AAddr (Ante.From msg)]))
             else Returned None).
  { intros Hnot. subst result. unfold Ante.CanTransfer.
    destruct isLondon; [|done].
    destruct baseFee as [b|]; [|by destruct Hbase].
    rewrite Cmp_lt. destruct (Z.ltb_spec (Ante.GasFeeCap msg) b) as [Hlt|Hge].
    - destruct Hnot. split; [done|]. eauto.
    - by destruct (Ante.GasFeeCap msg =? b). }
  split; [split; [|done]|split].
  - intros Hres. destruct (decide (isLondon = true)) as [HL|HL].
    + destruct baseFee as [b|]; [|by destruct Hbase].
      destruct (Z.ltb_spec (Ante.GasFeeCap msg) b) as [Hlt|Hge].
      * split; [done|]. eauto.
      * rewrite Hrest in Hres.
        { by repeat case_match. }
        intros (_ & b' & [= <-] & ?). lia.
    + rewrite Hrest in Hres by (intros [? _]; done). by repeat case_match.
  - intros Hnot. rewrite (Hrest Hnot). unfold cannotCover. rewrite <- Hfunds.
    destruct (0 <? Ante.Sign (Ante.Value msg));
      destruct (EVMCanTransfer ctx msg cfg (Ante.From msg) (Ante.Value msg)); simpl;
      split; try done; intros [? ?]; done.
  - intros Hnot Hcover. rewrite (Hrest Hnot).
    destruct (0 <? Ante.Sign (Ante.Value msg)) eqn:Hs; [|done].
    destruct (EVMCanTransfer ctx msg cfg (Ante.From msg) (Ante.Value msg)) eqn:Hc; [done|].
    destruct Hcover. split; [by apply Hfunds|done].
Qed.

End CanTransferProperties.

(** ** The method dispatcher *)

Section DispatcherProperties.
Import ERC20.
Context {names : MethodNames}.

(** The [case] constants of one Go [switch] are pairwise distinct (the
    compiler refuses duplicates), so the sixteen names [HandleMethod]
    switches over are. *)
Hypothesis dispatch_distinct : NoDup dispatchNames.

Ltac in_list :=
  solve [repeat first [apply list_elem_of_here | apply list_elem_of_further]].

(** [E] equates two different names of the switch. *)
Ltac names_clash E :=
  let Hd := fresh "Hd" in
  pose proof dispatch_distinct as Hd; unfold dispatchNames in Hd;
  rewrite E in Hd;
  solve [repeat (let Hn := fresh "Hn" in
                 apply NoDup_cons in Hd as [Hn Hd]; try (apply Hn; in_list))].

(** Decide every comparison of names in the goal. *)
Ltac switch_names :=
  repeat match goal with
  | |- context [String.eqb ?a ?a] => rewrite (String.eqb_refl a)
  | |- context [String.eqb ?a ?b] =>
      let E := fresh "E" in
      destruct (String.eqb_spec a b) as [E|?];
      [first [exfalso; names_clash E | exfalso; congruence | rewrite E in *]|]
  end.

(** C7: [IsTransaction] depends on the method name alone; it is true for
    exactly the nine transaction names and false for each of the seven
    query names (name, symbol, decimals, total supply, balance-of,
    allowance, owner). *)
Theorem IsTransaction_partitions_names :
  (∀ m m', abi.Name m = abi.Name m' → IsTransaction m = IsTransaction m')
  ∧ (∀ m, IsTransaction m = true ↔
          abi.Name m ∈ [ TransferMethod; TransferFromMethod; ApproveMethod;
                         IncreaseAllowanceMethod; DecreaseAllowanceMethod;
                         MintMethod; BurnMethod; BurnFromMethod;
                         TransferOwnershipMethod ])
  ∧ (∀ m, abi.Name m ∈ [ NameMethod; SymbolMethod; DecimalsMethod;
                         TotalSupplyMethod; BalanceOfMethod; AllowanceMethod;
                         OwnerMethod ] →
          IsTransaction m = false).
Proof.
  split; [|split].
  - intros m m' Hname. unfold IsTransaction. by rewrite Hname.
  - intros m. unfold IsTransaction. rewrite !elem_of_cons, elem_of_nil.
    repeat match goal with
    | |- context [String.eqb ?a ?b] => destruct (String.eqb_spec a b)
    end; simpl; split; try done; try tauto; intros; tauto.
  - intros m Hq. unfold IsTransaction.
    rewrite !elem_of_cons, elem_of_nil in Hq.
    destruct Hq as [E|[E|[E|[E|[E|[E|[E|[]]]]]]]]; rewrite E; switch_names; done.
Qed.

(** *** RequiredGas *)

(** Too short a payload costs nothing. *)
Lemma RequiredGas_short p input :
  (length input < 4)%nat → RequiredGas p input = 0.
Proof.
  intros Hlen. unfold RequiredGas.
  by rewrite (proj2 (Z.ltb_lt _ _)) by lia.
Qed.

(** A selector the ABI does not know costs nothing. *)
Lemma RequiredGas_unknown p input :
  abi.MethodById (ABI p) (take 4 input) = None → RequiredGas p input = 0.
Proof.
  intros Hnone. unfold RequiredGas. rewrite Hnone. by case_match.
Qed.

(** Only the first four bytes of the payload are read. *)
Lemma RequiredGas_selector_only p selector arguments arguments' :
  length selector = 4%nat →
  RequiredGas p (selector ++ arguments) = RequiredGas p (selector ++ arguments').
Proof.
  intros Hlen. unfold RequiredGas.
  rewrite !length_app, !take_app_length' by done.
  rewrite !(proj2 (Z.ltb_ge _ _)) by lia. done.
Qed.

(** The switch of [RequiredGas] and the table agree on every name the table
    has an entry for. *)
Lemma RequiredGas_recorded p input m c :
  (4 ≤ length input)%nat →
  abi.MethodById (ABI p) (take 4 input) = Some m →
  gasCost (abi.Name m) = Some c →
  RequiredGas p input = c.
Proof.
  intros Hlen Hm. unfold RequiredGas.
  rewrite (proj2 (Z.ltb_ge _ _)) by lia. rewrite Hm. cbv zeta.
  unfold gasCost, gasTable. simpl.
  switch_names; simpl; congruence.
Qed.

(** A recognized method without an entry in the table costs nothing. *)
Lemma RequiredGas_unrecorded p input m :
  abi.MethodById (ABI p) (take 4 input) = Some m →
  gasCost (abi.Name m) = None →
  RequiredGas p input = 0.
Proof.
  intros Hm. unfold RequiredGas. case_match; [done|]. rewrite Hm. cbv zeta.
  unfold gasCost, gasTable. simpl.
  switch_names; simpl; congruence.
Qed.

(** C3, as amended: [RequiredGas] is 0 for a payload shorter than four
    bytes and for a selector the ABI does not know; for a recognized
    selector whose method has an entry in the gas table it is exactly the
    recorded cost; and it does not depend on the bytes after the
    selector. *)
Theorem RequiredGas_follows_gas_table p input :
  ((length input < 4)%nat → RequiredGas p input = 0)
  ∧ (abi.MethodById (ABI p) (take 4 input) = None → RequiredGas p input = 0)
  ∧ (∀ m c, (4 ≤ length input)%nat →
            abi.MethodById (ABI p) (take 4 input) = Some m →
            gasCost (abi.Name m) = Some c →
            RequiredGas p input = c)
  ∧ (∀ arguments, (4 ≤ length input)%nat →
                  RequiredGas p (take 4 input ++ arguments) = RequiredGas p input).
Proof.
  split; [apply RequiredGas_short|].
  split; [apply RequiredGas_unknown|].
  split; [intros m c; apply RequiredGas_recorded|].
  intros arguments Hlen.
  transitivity (RequiredGas p (take 4 input ++ drop 4 input));
    [|by rewrite take_drop].
  apply RequiredGas_selector_only. rewrite length_take. lia.
Qed.

End DispatcherProperties.

(** ** The execution bridge *)

Section BridgeProperties.
Import ERC20.
Context {names : MethodNames} {Ledger Snapshot : Type}.
Context {collab : Collaborators Ledger Snapshot}.
Implicit Types (st : State Ledger) (s : Setup Snapshot).

(** C2: a call that carries a positive value is turned down with the
    cannot-receive-funds error before call setup: the state comes back as
    it went in, whatever the collaborators are. *)
Theorem Run_rejects_attached_value st readOnly :
  0 < vm.Value (snd st) →
  Run st readOnly
  = (Returned (None, Some (ErrCannotReceiveFunds (vm.Value (snd st)))), st)
  ∧ ∀ collab' : Collaborators Ledger Snapshot,
      Run (collab := collab') st readOnly = Run st readOnly.
Proof.
  intros Hpos.
  assert (Hsgn : (Z.sgn (vm.Value (snd st)) =? 1) = true).
  { apply Z.eqb_eq. lia. }
  split; [|intros collab']; unfold Run; by rewrite Hsgn.
Qed.

(** [uint64] subtraction is the plain difference when it does not wrap. *)
Lemma sub64_no_wrap a b : 0 ≤ b ≤ a → a < 2 ^ 64 → sub64 a b = a - b.
Proof. intros H H'. unfold sub64. apply Z.mod_small. lia. Qed.

(** C1: when call setup and the handler succeed, the cost charged to the
    contract is the meter's consumed gas after the handler minus the
    reading taken at call setup (in [uint64]).  If the contract's gas is
    below the cost, [Run] returns the out-of-gas error without bytes; and
    otherwise the cost is deducted from the contract's gas, then the
    journal entries are added, and the handler's bytes are returned when
    that succeeded. *)
Theorem Run_charges_consumed_gas st readOnly s st1 bz st2 :
  vm.Value (snd st) ≤ 0 →
  RunSetup st readOnly IsTransaction = (Returned (inr s), st1) →
  HandleMethod st1 (method s) (args s) = (Returned (bz, None), st2) →
  let cost := sub64 (GasConsumed (fst st2)) (initialGas s) in
  (0 ≤ initialGas s ≤ GasConsumed (fst st2) → GasConsumed (fst st2) < 2 ^ 64 →
   cost = GasConsumed (fst st2) - initialGas s)
  ∧ (vm.Gas (snd st2) < cost →
     Run st readOnly = (Returned (None, Some ErrOutOfGas), st2))
  ∧ (cost ≤ vm.Gas (snd st2) →
     let charged := (fst st2, vm.setGas (snd st2) (vm.Gas (snd st2) - cost)) in
     match AddJournalEntries charged (snapshot s) with
     | (Returned None, st3) => Run st readOnly = (Returned (bz, None), st3)
     | (Returned (Some err), st3) => Run st readOnly = (Returned (None, Some err), st3)
     | (Panicked f, st3) => Run st readOnly = HandleGasError (initialGas s) bz f st3
     end).
Proof.
  intros Hvalue Hsetup Hhandler cost.
  assert (Hsgn : (Z.sgn (vm.Value (snd st)) =? 1) = false).
  { apply Z.eqb_neq. lia. }
  split; [apply sub64_no_wrap|].
  split.
  - intros Hlow. unfold Run. rewrite Hsgn, Hsetup, Hhandler.
    unfold vm.UseGas. fold cost. rewrite (proj2 (Z.ltb_lt _ _) Hlow).
    by destruct st2.
  - intros Hcovers charged. unfold Run. rewrite Hsgn, Hsetup, Hhandler.
    unfold vm.UseGas. fold cost. rewrite (proj2 (Z.ltb_ge _ _) Hcovers).
    fold charged.
    destruct (AddJournalEntries charged (snapshot s)) as [[[err|]|f] st3]; done.
Qed.

(** The sixteen names of the switch do not include the legacy burn. *)
Hypothesis burn0_not_dispatched : Burn0Method ∉ dispatchNames.

Ltac in_dispatch :=
  solve [repeat first [apply list_elem_of_here | apply list_elem_of_further]].

(** C10: a method named [Burn0Method] matches no [case] of [HandleMethod]:
    the unknown-method error comes back and no handler runs.  So a call
    that call setup decodes to that method never succeeds through [Run]:
    without attached value it ends with the unknown-method error in the
    state call setup left, and in every case it ends with an error. *)
Theorem Burn0_is_unknown_method :
  (∀ st m arguments,
     abi.Name m = Burn0Method →
     HandleMethod st m arguments
     = (Returned (None, Some (ErrUnknownMethod Burn0Method)), st))
  ∧ (∀ st readOnly s st1,
       vm.Value (snd st) ≤ 0 →
       RunSetup st readOnly IsTransaction = (Returned (inr s), st1) →
       abi.Name (method s) = Burn0Method →
       Run st readOnly
       = (Returned (None, Some (ErrUnknownMethod Burn0Method)), st1))
  ∧ (∀ st readOnly s st1,
       RunSetup st readOnly IsTransaction = (Returned (inr s), st1) →
       abi.Name (method s) = Burn0Method →
       ∃ err st', Run st readOnly = (Returned (None, Some err), st')).
Proof.
  assert (Hhandle : ∀ st m arguments,
     abi.Name m = Burn0Method →
     HandleMethod st m arguments
     = (Returned (None, Some (ErrUnknownMethod Burn0Method)), st)).
  { intros st m arguments Hname. unfold HandleMethod. rewrite Hname.
    repeat match goal with
    | |- context [String.eqb Burn0Method ?b] =>
        let E := fresh "E" in
        destruct (String.eqb_spec Burn0Method b) as [E|_];
        [exfalso; apply burn0_not_dispatched; unfold dispatchNames;
         rewrite E; in_dispatch|]
    end.
    done. }
  split; [exact Hhandle|]. split.
  - intros st readOnly s st1 Hvalue Hsetup Hname.
    assert (Hsgn : (Z.sgn (vm.Value (snd st)) =? 1) = false).
    { apply Z.eqb_neq. lia. }
    unfold Run. by rewrite Hsgn, Hsetup, (Hhandle _ _ _ Hname).
  - intros st readOnly s st1 Hsetup Hname. unfold Run.
    destruct (Z.sgn (vm.Value (snd st)) =? 1); [eauto|].
    rewrite Hsetup, (Hhandle _ _ _ Hname). eauto.
Qed.

End BridgeProperties.

(** ** The transaction handlers *)

Section HandlerProperties.
Import ERC20.
Variable denom : string.
Implicit Types (l : Tx.Ledger) (contract : vm.Contract) (m : abi.Method).


Lemma checkPositive_positive a l :
  0 < a → Tx.checkPositive denom a l = (inr tt, l).
Proof.
  intros Ha. unfold Tx.checkPositive. by rewrite (proj2 (Z.leb_gt _ _) Ha).
Qed.

(** A grant that is missing or too small is not spent. *)
Lemma spendAllowance_insufficient e granter grantee amount l :
  Tx.grants l !! (granter, grantee) = None
  ∨ (∃ g, Tx.grants l !! (granter, grantee) = Some g ∧ Tx.spendLimit g < amount) →
  Tx.spendAllowance e granter grantee amount l = (inl e, l).
Proof.
  unfold Tx.spendAllowance, Tx.bind, Tx.get, Tx.fail.
  intros [->|(g & -> & Hlim)]; [done|].
  destruct (Tx.expired l g); [done|].
  by rewrite (proj2 (Z.ltb_lt _ _) Hlim).
Qed.


(** C5, as amended: for a positive amount, a [TransferFrom] or [BurnFrom]
    whose caller is not the source account, and for which the grant from
    the source to the caller is missing or has a limit below the amount,
    fails with the insufficient-allowance error of the handler and leaves
    the ledger, and so both balances, as they were. *)
Theorem missing_allowance_is_rejected l contract m from to amount :
  vm.CallerAddress contract ≠ from →
  0 < amount →
  (Tx.grants l !! (from, vm.CallerAddress contract) = None
   ∨ ∃ g, Tx.grants l !! (from, vm.CallerAddress contract) = Some g
          ∧ Tx.spendLimit g < amount) →
  Tx.TransferFrom denom contract m [VAddress from; VAddress to; VBigInt amount] l
  = (inl ErrInsufficientAllowance, l)
  ∧ Tx.BurnFrom denom contract m [VAddress from; VBigInt amount] l
    = (inl ErrSubtractMoreThanAllowance, l).
Proof.
  intros Hcaller Hpos Hgrant.
  unfold Tx.TransferFrom, Tx.BurnFrom, Tx.bind, Tx.lift. simpl.
  rewrite (checkPositive_positive amount l Hpos).
  rewrite bool_decide_false by done.
  by rewrite !(spendAllowance_insufficient _ _ _ _ _ Hgrant).
Qed.

(** The bank's move debits the sender and credits the recipient. *)
Lemma send_moves from to amount l :
  amount ≤ Tx.GetBalance l from denom →
  ∃ l', Tx.send denom from to amount l = (inr tt, l')
        ∧ Tx.grants l' = Tx.grants l
        ∧ Tx.GetBalance l' to denom
          = (if bool_decide (to = from) then Tx.GetBalance l to denom
             else Tx.GetBalance l to denom + amount)
        ∧ (to ≠ from →
           Tx.GetBalance l' from denom = Tx.GetBalance l from denom - amount)
        ∧ ∀ g, Tx.send denom from to amount (Tx.setGrants l g)
               = (inr tt, Tx.setGrants l' g).
Proof.
  intros Hbal. unfold Tx.send, Tx.bind, Tx.get.
  rewrite (proj2 (Z.ltb_ge _ _) Hbal).
  unfold Tx.subBalance, Tx.addBalance, Tx.bind, Tx.get, Tx.put. simpl.
  eexists. split; [reflexivity|]. split; [done|]. split; [|split].
  - unfold Tx.GetBalance. simpl. rewrite lookup_insert_eq. simpl.
    case_bool_decide as Hto.
    + subst to. rewrite lookup_insert_eq. simpl. lia.
    + rewrite lookup_insert_ne by congruence. done.
  - intros Hne. unfold Tx.GetBalance. simpl.
    rewrite lookup_insert_ne by congruence. by rewrite lookup_insert_eq.
  - intros g. unfold Tx.GetBalance, Tx.setGrants, Tx.setBalances. simpl.
    unfold Tx.GetBalance in Hbal. by rewrite (proj2 (Z.ltb_ge _ _) Hbal).
Qed.

(** C6: when the caller is the source account, [TransferFrom] succeeds for
    every positive amount up to the caller's balance; the recipient is
    credited by exactly the amount (a transfer to oneself debits and
    credits the same balance); and no grant is needed or read: the grants
    come back unchanged, and with any other grants in the ledger the call
    does the same. *)
Theorem TransferFrom_own_account_needs_no_grant l contract m to amount :
  let from := vm.CallerAddress contract in
  0 < amount →
  amount ≤ Tx.GetBalance l from denom →
  ∃ l', Tx.TransferFrom denom contract m
          [VAddress from; VAddress to; VBigInt amount] l
        = (inr Tx.packTrue, l')
        ∧ Tx.grants l' = Tx.grants l
        ∧ Tx.GetBalance l' to denom
          = (if bool_decide (to = from) then Tx.GetBalance l to denom
             else Tx.GetBalance l to denom + amount)
        ∧ (to ≠ from →
           Tx.GetBalance l' from denom = Tx.GetBalance l from denom - amount)
        ∧ ∀ g, Tx.TransferFrom denom contract m
                 [VAddress from; VAddress to; VBigInt amount] (Tx.setGrants l g)
               = (inr Tx.packTrue, Tx.setGrants l' g).
Proof.
  intros from Hpos Hbal.
  destruct (send_moves from to amount l Hbal) as (l' & Hsend & Hg & Hto & Hfrom & Hany).
  exists l'. unfold Tx.TransferFrom, Tx.bind, Tx.lift. simpl.
  rewrite !checkPositive_positive by done.
  rewrite bool_decide_true by done. unfold Tx.ret at 1 3.
  rewrite Hsend. split; [done|]. split; [done|]. split; [done|]. split; [done|].
  intros g. rewrite checkPositive_positive by done. by rewrite Hany.
Qed.

End HandlerProperties.

(** ** Worked examples on the reference instance *)

Section Examples.
Import ERC20 Reference.

(** The names of the reference ABI are pairwise distinct, and [burn0] is
    none of the names of the switch. *)
Lemma abiNames_distinct : NoDup (dispatchNames (names := abiNames)).
Proof. apply (bool_decide_unpack _). vm_compute. reflexivity. Defined.

Lemma abiNames_burn0 :
  Burn0Method (MethodNames := abiNames) ∉ dispatchNames (names := abiNames).
Proof. apply (bool_decide_unpack _). vm_compute. reflexivity. Defined.

(** *** The registry *)

Example Precompiles_registered :
  Keeper.Precompiles registry [2; 1; 2]
  = Returned (<[2 := "sha256"]> (<[1 := "ecrecover"]> (<[2 := "sha256"]> ∅))).
Proof. reflexivity. Qed.

Example Precompiles_unregistered :
  Keeper.Precompiles registry [2; 9; 1] = Panicked (Keeper.NotInitialized 9).
Proof. reflexivity. Qed.

(** A request that names the unregistered address 9 panics. *)
Lemma Precompiles_panics_witness :
  ∃ a, a ∈ [2; 9; 1] ∧ Keeper.precompiles registry !! a = None
       ∧ Keeper.Precompiles registry [2; 9; 1] = Panicked (Keeper.NotInitialized a).
Proof.
  apply (proj1 (Precompiles_panics_or_returns_requested registry [2; 9; 1])).
  exists 9. split; [|reflexivity].
  apply list_elem_of_further, list_elem_of_here.
Defined.

(** *** The pre-transfer check *)

Example CanTransfer_fee_below_base :
  Ante.CanTransfer canMove tt (message 5 0) (Some 10) tt tt true
  = Returned (Some (Ante.Wrapf Ante.ErrInsufficientFee
      "max fee per gas less than block base fee (%s < %s)"
      [Ante.ABig (Some 5); Ante.ABig (Some 10)])).
Proof. reflexivity. Qed.

Example CanTransfer_value_not_covered :
  Ante.CanTransfer canMove tt (message 10 101) (Some 10) tt tt true
  = Returned (Some (Ante.Wrapf Ante.ErrInsufficientFunds
      "failed to transfer %s from address %s using the EVM block context transfer function"
      [Ante.ABig (Some 101); Ante.AAddr 7])).
Proof. reflexivity. Qed.

Example CanTransfer_passes : Ante.CanTransfer canMove tt (message 10 100) None tt tt false = Returned None.
Proof. reflexivity. Qed.

Example CanTransfer_without_base_fee :
  Ante.CanTransfer canMove tt (message 10 100) None tt tt true = Panicked Ante.NilDereference.
Proof. reflexivity. Qed.

Lemma CanTransfer_witness :
  Ante.CanTransfer canMove tt (message 5 0) (Some 10) tt tt true
  = Returned (Some (Ante.Wrapf Ante.ErrInsufficientFee
      "max fee per gas less than block base fee (%s < %s)"
      [Ante.ABig (Some 5); Ante.ABig (Some 10)])).
Proof.
  apply (CanTransfer_fee_then_funds_then_nil canMove tt (message 5 0) (Some 10)
           tt tt true).
  - intros _. discriminate.
  - split; [reflexivity|]. exists 10. split; [reflexivity|]. simpl. lia.
Defined.

(** *** The dispatcher *)

Lemma IsTransaction_witness :
  IsTransaction (names := abiNames) {| abi.Name := "owner"; abi.ID := ownerSelector |} = false.
Proof.
  apply (IsTransaction_partitions_names (names := abiNames) abiNames_distinct).
  simpl. do 6 apply list_elem_of_further. apply list_elem_of_here.
Defined.

Lemma RequiredGas_witness :
  RequiredGas (names := abiNames) precompile nameSelector = GasName.
Proof.
  apply (RequiredGas_follows_gas_table (names := abiNames) abiNames_distinct
           precompile nameSelector)
    with (m := {| abi.Name := "name"; abi.ID := nameSelector |}).
  - simpl. lia.
  - reflexivity.
  - reflexivity.
Defined.

(** The selector of [owner()] is recognized, the gas table has no entry for
    the method, and [RequiredGas] answers 0: not a cost the table
    records. *)
Lemma RequiredGas_owner_has_no_recorded_cost :
  abi.MethodById (ABI precompile) ownerSelector
  = Some {| abi.Name := "owner"; abi.ID := ownerSelector |}
  ∧ gasCost (names := abiNames) "owner" = None
  ∧ RequiredGas (names := abiNames) precompile ownerSelector = 0
  ∧ ¬ (∃ c, gasCost (names := abiNames) "owner" = Some c
            ∧ RequiredGas (names := abiNames) precompile ownerSelector = c).
Proof.
  repeat split; try reflexivity.
  intros (c & Hc & _). vm_compute in Hc. discriminate.
Qed.

(** *** The bridge *)

(** [name()] with 50 gas left and the meter at 5: the handler brings the
    meter to 15, so 10 is charged. *)
Example Run_name :
  Run (names := abiNames) (collab := refCollaborators 1000)
      ((emptyLedger, 5), call nameSelector 0 50) false
  = (Returned (Some [Byte.x78], None), ((emptyLedger, 15), call nameSelector 0 40)).
Proof. reflexivity. Qed.

(** The same call with 9 gas left. *)
Example Run_name_out_of_gas :
  Run (names := abiNames) (collab := refCollaborators 1000)
      ((emptyLedger, 5), call nameSelector 0 9) false
  = (Returned (None, Some ErrOutOfGas), ((emptyLedger, 15), call nameSelector 0 9)).
Proof. reflexivity. Qed.

(** The ledger's meter runs out inside the handler. *)
Example Run_name_meter_exhausted :
  Run (names := abiNames) (collab := refCollaborators 12)
      ((emptyLedger, 5), call nameSelector 0 50) false
  = (Returned (None, Some ErrOutOfGas), ((emptyLedger, 12), call nameSelector 0 50)).
Proof. reflexivity. Qed.

Lemma Run_charges_consumed_gas_witness :
  Run (names := abiNames) (collab := refCollaborators 1000)
      ((emptyLedger, 5), call nameSelector 0 50) false
  = (Returned (Some [Byte.x78], None), ((emptyLedger, 15), call nameSelector 0 40)).
Proof.
  destruct (Run_charges_consumed_gas (names := abiNames)
              (collab := refCollaborators 1000)
              ((emptyLedger, 5), call nameSelector 0 50) false
              {| snapshot := emptyLedger; method := nameMethod;
                 initialGas := 5; args := [] |}
              ((emptyLedger, 5), call nameSelector 0 50)
              (Some [Byte.x78])
              ((emptyLedger, 15), call nameSelector 0 50))
    as (_ & _ & Hcharged).
  - simpl. lia.
  - reflexivity.
  - reflexivity.
  - apply Hcharged. vm_compute. discriminate.
Defined.

Lemma Run_rejects_attached_value_witness :
  Run (names := abiNames) (collab := refCollaborators 1000)
      ((emptyLedger, 5), call nameSelector 7 50) false
  = (Returned (None, Some (ErrCannotReceiveFunds 7)),
     ((emptyLedger, 5), call nameSelector 7 50)).
Proof.
  apply (Run_rejects_attached_value (names := abiNames)
           (collab := refCollaborators 1000)
           ((emptyLedger, 5), call nameSelector 7 50) false).
  simpl. lia.
Defined.

Lemma Burn0_is_unknown_method_witness :
  Run (names := abiNames) (collab := refCollaborators 1000)
      ((emptyLedger, 5), call burn0Selector 0 50) false
  = (Returned (None, Some (ErrUnknownMethod "burn0")),
     ((emptyLedger, 5), call burn0Selector 0 50)).
Proof.
  apply (proj1 (proj2 (Burn0_is_unknown_method (names := abiNames)
                         (collab := refCollaborators 1000) abiNames_burn0)))
    with (s := {| snapshot := emptyLedger; method := burn0Method;
                  initialGas := 5; args := [] |}).
  - simpl. lia.
  - reflexivity.
  - reflexivity.
Defined.

(** *** The handlers *)

Example TransferFrom_on_behalf :
  let '(r, l) := Tx.TransferFrom "xmpl" (by_ 2) nameMethod
                   [VAddress 1; VAddress 3; VBigInt 100] funded in
  r = inr Tx.packTrue
  ∧ Tx.GetBalance l 3 "xmpl" = 100 ∧ Tx.GetBalance l 1 "xmpl" = 900
  ∧ Tx.spendLimit <$> Tx.grants l !! (1, 2) = Some 200.
Proof. vm_compute. repeat split. Qed.

Example TransferFrom_exceeds_allowance :
  Tx.TransferFrom "xmpl" (by_ 2) nameMethod [VAddress 1; VAddress 3; VBigInt 301] funded
  = (inl ErrInsufficientAllowance, funded).
Proof. reflexivity. Qed.



Lemma missing_allowance_is_rejected_witness :
  Tx.TransferFrom "xmpl" (by_ 2) nameMethod [VAddress 1; VAddress 3; VBigInt 301] funded
  = (inl ErrInsufficientAllowance, funded)
  ∧ Tx.BurnFrom "xmpl" (by_ 2) nameMethod [VAddress 1; VBigInt 301] funded
    = (inl ErrSubtractMoreThanAllowance, funded).
Proof.
  apply (missing_allowance_is_rejected "xmpl" funded (by_ 2) nameMethod 1 3 301).
  - simpl. lia.
  - lia.
  - right. eexists. split; [reflexivity|]. simpl. lia.
Defined.

(** Account 3 has no grant from account 1 and asks for -1: the call fails
    with the not-positive error, not with the allowance error (the first
    case of [TestTransferFrom]). *)
Lemma TransferFrom_negative_amount_without_grant :
  vm.CallerAddress (by_ 3) ≠ 1
  ∧ Tx.grants funded !! (1, vm.CallerAddress (by_ 3)) = None
  ∧ Tx.TransferFrom "xmpl" (by_ 3) nameMethod [VAddress 1; VAddress 4; VBigInt (-1)] funded
    = (inl (ErrCoinNotPositive (-1) "xmpl"), funded)
  ∧ fst (Tx.TransferFrom "xmpl" (by_ 3) nameMethod
           [VAddress 1; VAddress 4; VBigInt (-1)] funded)
    ≠ inl ErrInsufficientAllowance.
Proof.
  split; [simpl; lia|]. split; [reflexivity|]. split; [reflexivity|].
  vm_compute. discriminate.
Qed.

Lemma TransferFrom_own_account_witness :
  ∃ l', Tx.TransferFrom "xmpl" (by_ 1) nameMethod
          [VAddress 1; VAddress 3; VBigInt 1000] funded
        = (inr Tx.packTrue, l')
        ∧ Tx.grants l' = Tx.grants funded
        ∧ Tx.GetBalance l' 3 "xmpl" = 1000.
Proof.
  destruct (TransferFrom_own_account_needs_no_grant "xmpl" funded (by_ 1)
              nameMethod 3 1000) as (l' & Hrun & Hgrants & Hto & _).
  - lia.
  - vm_compute. discriminate.
  - exists l'. split; [exact Hrun|]. split; [exact Hgrants|]. exact Hto.
Defined.

End Examples.

(** ** More on the precompile registry *)

Section RegistryCoverage.
Context {PrecompiledContract : Type}.
Implicit Types (k : Keeper.Keeper PrecompiledContract) (active : list Address).
Implicit Types (acc m : gmap Address PrecompiledContract).

(** The loop over a request that starts with registered addresses goes on
    with the rest, the accumulator holding what was added. *)
Lemma Precompiles_range_app k pre rest acc m :
  Keeper.Precompiles_range k pre acc = Returned m →
  Keeper.Precompiles_range k (pre ++ rest) acc = Keeper.Precompiles_range k rest m.
Proof.
  revert acc. induction pre as [|a pre IH]; intros acc Hrun; simpl in *.
  - by injection Hrun as ->.
  - destruct (Keeper.precompiles k !! a); [by apply IH|done].
Qed.

(** A loop that panics does so whatever is requested after. *)
Lemma Precompiles_range_app_panic k pre rest acc fault :
  Keeper.Precompiles_range k pre acc = Panicked fault →
  Keeper.Precompiles_range k (pre ++ rest) acc = Panicked fault.
Proof.
  revert acc. induction pre as [|a pre IH]; intros acc Hrun; simpl in *; [done|].
  destruct (Keeper.precompiles k !! a); [by apply IH|done].
Qed.

(** A loop that returns has met registered addresses only. *)
Lemma Precompiles_range_returned k active acc m :
  Keeper.Precompiles_range k active acc = Returned m →
  ∀ a, a ∈ active → is_Some (Keeper.precompiles k !! a).
Proof.
  revert acc. induction active as [|b active IH]; intros acc Hrun a Ha; simpl in *.
  - by apply elem_of_nil in Ha.
  - destruct (Keeper.precompiles k !! b) as [p|] eqn:Hb; [|done].
    apply elem_of_cons in Ha as [->|Ha]; [by rewrite Hb|by eapply IH].
Qed.

(** What a returned map holds at every address. *)
Lemma Precompiles_returned_lookup k active m a :
  Keeper.Precompiles k active = Returned m →
  m !! a = if decide (a ∈ active) then Keeper.precompiles k !! a else None.
Proof.
  intros Hrun.
  destruct (Precompiles_range_registered k active ∅
              (Precompiles_range_returned k active ∅ m Hrun))
    as (m' & Hrun' & _ & Hin & Hout).
  unfold Keeper.Precompiles in Hrun. rewrite Hrun in Hrun'. injection Hrun' as <-.
  case_decide; [by apply Hin|]. by rewrite Hout, lookup_empty.
Qed.

(** X1: [Precompiles] panics with the message for address [a] exactly when
    [a] is the first requested address without a registration: every
    address requested before it is registered, and the addresses after it
    are not looked at. *)
Theorem Precompiles_panics_at_first_unregistered k active a :
  Keeper.Precompiles k active = Panicked (Keeper.NotInitialized a)
  ↔ ∃ pre rest, active = pre ++ a :: rest
                ∧ (∀ b, b ∈ pre → is_Some (Keeper.precompiles k !! b))
                ∧ Keeper.precompiles k !! a = None.
Proof.
  unfold Keeper.Precompiles. split.
  - generalize (∅ : gmap Address PrecompiledContract).
    induction active as [|b active IH]; intros acc Hrun; simpl in *; [done|].
    destruct (Keeper.precompiles k !! b) as [p|] eqn:Hb.
    + destruct (IH _ Hrun) as (pre & rest & -> & Hpre & Ha).
      exists (b :: pre), rest. split; [done|]. split; [|done].
      intros c Hc. apply elem_of_cons in Hc as [->|Hc]; [by rewrite Hb|by apply Hpre].
    + injection Hrun as <-. exists [], active. split; [done|]. split; [|done].
      intros c Hc. by apply elem_of_nil in Hc.
  - intros (pre & rest & -> & Hpre & Ha).
    destruct (Precompiles_range_registered k pre ∅ Hpre) as (m & Hrun & _).
    rewrite (Precompiles_range_app _ _ _ _ _ Hrun). simpl. by rewrite Ha.
Qed.

(** X2: the map [Precompiles] returns is the registry restricted to the
    requested addresses; so it is part of the registry. *)
Theorem Precompiles_returns_restriction k active m :
  Keeper.Precompiles k active = Returned m →
  m = filter (λ entry, entry.1 ∈ active) (Keeper.precompiles k)
  ∧ m ⊆ Keeper.precompiles k.
Proof.
  intros Hrun.
  assert (Heq : m = filter (λ entry, entry.1 ∈ active) (Keeper.precompiles k)).
  { apply map_eq. intros a. rewrite (Precompiles_returned_lookup _ _ _ a Hrun).
    destruct (Keeper.precompiles k !! a) as [p|] eqn:Ha.
    - case_decide.
      + symmetry. by apply map_lookup_filter_Some.
      + symmetry. apply map_lookup_filter_None. right. intros p' Hp'. done.
    - assert (filter (λ entry, entry.1 ∈ active) (Keeper.precompiles k) !! a = None) as ->.
      { apply map_lookup_filter_None. by left. }
      by case_decide. }
  split; [done|]. rewrite Heq. apply map_filter_subseteq.
Qed.

(** X3: neither the order of the request nor a repeated address shows in
    the result: two requests that name the same addresses and both return
    give the same map, and a request that returns makes every request for
    the same addresses return. *)
Theorem Precompiles_ignores_order_and_repeats k active active' m :
  (∀ a, a ∈ active ↔ a ∈ active') →
  Keeper.Precompiles k active = Returned m →
  Keeper.Precompiles k active' = Returned m.
Proof.
  intros Hsame Hrun.
  destruct (Precompiles_range_registered k active' ∅) as (m' & Hrun' & _).
  { intros a Ha. apply (Precompiles_range_returned k active ∅ m Hrun). by apply Hsame. }
  unfold Keeper.Precompiles. rewrite Hrun'. f_equal.
  apply map_eq. intros a.
  rewrite (Precompiles_returned_lookup k active' m' a Hrun').
  rewrite (Precompiles_returned_lookup k active m a Hrun).
  repeat case_decide; try done; exfalso; naive_solver.
Qed.

(** X4: a request that lists exactly the registered addresses gets the
    whole registry back. *)
Theorem Precompiles_of_all_registered k active :
  (∀ a, a ∈ active ↔ is_Some (Keeper.precompiles k !! a)) →
  Keeper.Precompiles k active = Returned (Keeper.precompiles k).
Proof.
  intros Hall.
  destruct (Precompiles_range_registered k active ∅) as (m & Hrun & _).
  { intros a Ha. by apply Hall. }
  unfold Keeper.Precompiles. rewrite Hrun. f_equal.
  apply map_eq. intros a. rewrite (Precompiles_returned_lookup k active m a Hrun).
  case_decide as Ha; [done|].
  destruct (Keeper.precompiles k !! a) eqn:Hk; [|done].
  destruct Ha. apply Hall. by rewrite Hk.
Qed.

(** X5: requests compose: when the requests for [active1] and for
    [active2] return [m1] and [m2], the request for both returns their
    union; and a request that panics keeps panicking, with the same
    message, whatever is requested after it. *)
Theorem Precompiles_app k active1 active2 :
  (∀ m1 m2,
     Keeper.Precompiles k active1 = Returned m1 →
     Keeper.Precompiles k active2 = Returned m2 →
     Keeper.Precompiles k (active1 ++ active2) = Returned (m1 ∪ m2))
  ∧ (∀ fault,
       Keeper.Precompiles k active1 = Panicked fault →
       Keeper.Precompiles k (active1 ++ active2) = Panicked fault).
Proof.
  split.
  - intros m1 m2 H1 H2.
    destruct (Precompiles_range_registered k (active1 ++ active2) ∅) as (m & Hrun & _).
    { intros a Ha. apply elem_of_app in Ha as [Ha|Ha].
      - by apply (Precompiles_range_returned k active1 ∅ m1 H1).
      - by apply (Precompiles_range_returned k active2 ∅ m2 H2). }
    unfold Keeper.Precompiles. rewrite Hrun. f_equal.
    apply map_eq. intros a. rewrite lookup_union.
    rewrite (Precompiles_returned_lookup _ _ _ a Hrun).
    rewrite (Precompiles_returned_lookup _ _ _ a H1).
    rewrite (Precompiles_returned_lookup _ _ _ a H2).
    repeat case_decide; try (exfalso; set_solver);
      by destruct (Keeper.precompiles k !! a).
  - intros fault Hpanic. by apply Precompiles_range_app_panic.
Qed.

(** X6: [AvailablePrecompiles] returns a map of its own with exactly the
    entries of the Berlin set: no map that was there changes, and an
    assignment to the returned map leaves the Berlin set as it was. *)
Theorem AvailablePrecompiles_is_a_copy
    (h : gmap Keeper.Ref (gmap Address PrecompiledContract)) berlin :
  berlin ∈ dom h →
  ∃ r h', Keeper.AvailablePrecompiles h berlin = (r, h')
          ∧ (r ∉ dom h)
          ∧ h' !! r = h !! berlin
          ∧ (∀ r0, r0 ∈ dom h → h' !! r0 = h !! r0)
          ∧ ∀ address precompile,
              Keeper.assign h' r address precompile !! berlin = h !! berlin
              ∧ Keeper.assign h' r address precompile !! r
                = (λ entries, <[address := precompile]> entries) <$> h !! berlin.
Proof.
  intros Hberlin. unfold Keeper.AvailablePrecompiles, Keeper.Clone.
  set (r := fresh (dom h)).
  assert (Hfresh : r ∉ dom h) by apply is_fresh.
  assert (Hne : r ≠ berlin) by (intros ->; done).
  apply elem_of_dom in Hberlin as [entries Hentries].
  eexists _, _. split; [reflexivity|]. split; [done|].
  rewrite Hentries. simpl. split; [by rewrite lookup_insert_eq|]. split.
  - intros r0 Hr0. rewrite lookup_insert_ne; [done|]. by intros ->.
  - intros address precompile. unfold Keeper.assign. split.
    + rewrite !lookup_insert_ne by done. done.
    + by rewrite !lookup_insert_eq.
Qed.

End RegistryCoverage.

(** ** More on the pre-transfer balance check *)

Section CanTransferCoverage.
Context {Context params_ChainConfig evmtypes_Params : Type}.
Implicit Types (ctx : Context) (msg : Ante.Message) (baseFee : option Z).
Implicit Types (ethCfg : params_ChainConfig) (params : evmtypes_Params).
Implicit Types
  (transfer : Context -> Ante.Message ->
              Ante.EVMConfig params_ChainConfig evmtypes_Params ->
              Address -> Z -> bool).

(** X7: the check faults (a nil dereference in [Cmp]) exactly when the fee
    floor is active and there is no base fee; in every other case it
    returns. *)
Theorem CanTransfer_faults_only_without_base_fee
    transfer ctx msg baseFee ethCfg params isLondon :
  (Ante.CanTransfer transfer ctx msg baseFee ethCfg params isLondon
   = Panicked Ante.NilDereference
   ↔ isLondon = true ∧ baseFee = None)
  ∧ (¬ (isLondon = true ∧ baseFee = None) →
     ∃ r, Ante.CanTransfer transfer ctx msg baseFee ethCfg params isLondon
          = Returned r).
Proof.
  split; [split|].
  - unfold Ante.CanTransfer. destruct isLondon; [destruct baseFee as [b|]; [|done]|].
    + rewrite Cmp_lt. by repeat case_match.
    + by repeat case_match.
  - by intros [-> ->].
  - intros Hnot. apply CanTransfer_returns. intros -> ->. by apply Hnot.
Qed.

(** X8: before the fee floor is active the fee cap is not compared with
    the base fee: whatever the base fee is, nil included, the check
    returns, and what it returns is decided by the value and the EVM's
    transfer predicate alone: the insufficient-funds error when the value
    is positive and the predicate refuses it, nil otherwise; never the
    insufficient-fee error. *)
Theorem CanTransfer_before_London_skips_fee_check
    transfer ctx msg baseFee ethCfg params :
  let cfg :=
    {| Ante.ChainConfig := ethCfg; Ante.Params := params;
       Ante.CoinBase := 0; Ante.BaseFee := baseFee |} in
  let refused :=
    0 < Ante.Value msg
    ∧ transfer ctx msg cfg (Ante.From msg) (Ante.Value msg) = false in
  (refused →
   ∃ e, Ante.CanTransfer transfer ctx msg baseFee ethCfg params false
        = Returned (Some e)
        ∧ Ante.sentinel e = Ante.ErrInsufficientFunds)
  ∧ (¬ refused →
     Ante.CanTransfer transfer ctx msg baseFee ethCfg params false
     = Returned None).
Proof.
  intros cfg refused. unfold Ante.CanTransfer. fold cfg.
  assert (Hsign : (0 <? Ante.Sign (Ante.Value msg)) = true ↔ 0 < Ante.Value msg).
  { unfold Ante.Sign. rewrite Z.ltb_lt. lia. }
  split.
  - intros [Hpos Hrefuse]. rewrite (proj2 Hsign Hpos), Hrefuse. simpl. eauto.
  - intros Hnot.
    destruct (0 <? Ante.Sign (Ante.Value msg)) eqn:Hs; [|done].
    destruct (transfer ctx msg cfg (Ante.From msg) (Ante.Value msg)) eqn:Ht;
      [done|].
    destruct Hnot. split; [by apply Hsign|done].
Qed.

(** X9: for a message without a positive value the EVM's transfer predicate
    is not asked: the result is the same whatever the predicate is, and it
    is never the insufficient-funds error. *)
Theorem CanTransfer_without_value_skips_transfer_check
    transfer ctx msg baseFee ethCfg params isLondon :
  Ante.Value msg ≤ 0 →
  (∀ transfer',
     Ante.CanTransfer transfer ctx msg baseFee ethCfg params isLondon
     = Ante.CanTransfer transfer' ctx msg baseFee ethCfg params isLondon)
  ∧ ∀ e, Ante.CanTransfer transfer ctx msg baseFee ethCfg params isLondon
         = Returned (Some e) →
         Ante.sentinel e = Ante.ErrInsufficientFee.
Proof.
  intros Hvalue.
  assert (Hsign : (0 <? Ante.Sign (Ante.Value msg)) = false).
  { unfold Ante.Sign. apply Z.ltb_ge. lia. }
  unfold Ante.CanTransfer. rewrite Hsign. simpl. split; [done|].
  intros e. repeat case_match; try done. by intros [= <-].
Qed.

(** X10: raising the fee cap never brings about the insufficient-fee
    error: when the check answers a message with that error after its fee
    cap was raised, it answers the message as it was with that error
    too. *)
Theorem CanTransfer_fee_error_is_antitone_in_fee_cap
    transfer ctx msg baseFee ethCfg params isLondon feeCap e :
  Ante.GasFeeCap msg ≤ feeCap →
  Ante.CanTransfer transfer ctx
    {| Ante.From := Ante.From msg; Ante.GasFeeCap := feeCap;
       Ante.Value := Ante.Value msg |} baseFee ethCfg params isLondon
  = Returned (Some e) →
  Ante.sentinel e = Ante.ErrInsufficientFee →
  ∃ e', Ante.CanTransfer transfer ctx msg baseFee ethCfg params isLondon
        = Returned (Some e')
        ∧ Ante.sentinel e' = Ante.ErrInsufficientFee.
Proof.
  intros Hcap. unfold Ante.CanTransfer. simpl.
  destruct isLondon.
  - destruct baseFee as [b|]; [|done]. rewrite !Cmp_lt.
    destruct (Z.ltb_spec feeCap b) as [Hlow|Hhigh].
    + rewrite (proj2 (Z.ltb_lt (Ante.GasFeeCap msg) b)) by lia. simpl. eauto.
    + destruct (feeCap =? b); simpl; case_match; try done;
        by intros [= <-].
  - case_match; [|done]. by intros [= <-].
Qed.

End CanTransferCoverage.

(** ** More on the method dispatcher *)

Section DispatcherCoverage.
Import ERC20.
Context {names : MethodNames}.

(** Split on the comparisons of names, as booleans. *)
Ltac split_names :=
  repeat (match goal with
          | |- context [String.eqb ?a ?b] => destruct (String.eqb a b)
          end; simpl).

(** X11: whatever the payload, the gas [RequiredGas] asks for is between 0
    and the cost of a transfer, 3,000,000. *)
Theorem RequiredGas_bounds p input :
  0 ≤ RequiredGas p input ≤ 3000000.
Proof.
  unfold RequiredGas. repeat case_match;
    unfold GasTransfer, GasApprove, GasIncreaseAllowance, GasDecreaseAllowance,
      GasMint, GasTransferOwnership, GasName, GasSymbol, GasDecimals,
      GasTotalSupply, GasBalanceOf, GasAllowance; lia.
Qed.

(** X12: [RequiredGas] is not 0 exactly when the payload has four bytes or
    more, its selector is one of the ABI, and the gas table has an entry
    for the method's name. *)
Theorem RequiredGas_nonzero_iff_recorded p input :
  RequiredGas p input ≠ 0
  ↔ (4 ≤ length input)%nat
    ∧ ∃ m, abi.MethodById (ABI p) (take 4 input) = Some m
           ∧ is_Some (gasCost (abi.Name m)).
Proof.
  unfold RequiredGas.
  destruct (Z.ltb_spec (Z.of_nat (length input)) 4) as [Hshort|Hlong].
  { split; [done|]. intros [Hlen _]. lia. }
  destruct (abi.MethodById (ABI p) (take 4 input)) as [m|].
  2:{ split; [done|]. by intros (_ & m & [=] & _). }
  cbv zeta.
  assert (Hname :
    (if String.eqb (abi.Name m) TransferMethod then GasTransfer
     else if String.eqb (abi.Name m) TransferFromMethod then GasTransfer
     else if String.eqb (abi.Name m) ApproveMethod then GasApprove
     else if String.eqb (abi.Name m) IncreaseAllowanceMethod then GasIncreaseAllowance
     else if String.eqb (abi.Name m) DecreaseAllowanceMethod then GasDecreaseAllowance
     else if String.eqb (abi.Name m) MintMethod then GasMint
     else if String.eqb (abi.Name m) BurnMethod then GasTransfer
     else if String.eqb (abi.Name m) BurnFromMethod then GasTransfer
     else if String.eqb (abi.Name m) TransferOwnershipMethod then GasTransferOwnership
     else if String.eqb (abi.Name m) NameMethod then GasName
     else if String.eqb (abi.Name m) SymbolMethod then GasSymbol
     else if String.eqb (abi.Name m) DecimalsMethod then GasDecimals
     else if String.eqb (abi.Name m) TotalSupplyMethod then GasTotalSupply
     else if String.eqb (abi.Name m) BalanceOfMethod then GasBalanceOf
     else if String.eqb (abi.Name m) AllowanceMethod then GasAllowance
     else 0) ≠ 0 ↔ is_Some (gasCost (abi.Name m))).
  { unfold gasCost, gasTable. simpl.
    split_names; split; intros H; try done; try (by eexists);
      by destruct H. }
  rewrite Hname. split.
  - intros Hsome. split; [lia|]. by exists m.
  - by intros (_ & m' & [= <-] & Hsome).
Qed.

(** X13: the two classes of methods are priced apart: a recognized method
    that [IsTransaction] calls a transaction costs at least 25,000, and one
    it calls a query at most 3,464. *)
Theorem RequiredGas_separates_transactions_from_queries p input m :
  (4 ≤ length input)%nat →
  abi.MethodById (ABI p) (take 4 input) = Some m →
  (IsTransaction m = true → 25000 ≤ RequiredGas p input)
  ∧ (IsTransaction m = false → RequiredGas p input ≤ 3464).
Proof.
  intros Hlen Hm. unfold RequiredGas, IsTransaction.
  rewrite (proj2 (Z.ltb_ge _ _)) by lia. rewrite Hm. cbv zeta.
  unfold GasTransfer, GasApprove, GasIncreaseAllowance, GasDecreaseAllowance,
    GasMint, GasTransferOwnership, GasName, GasSymbol, GasDecimals,
    GasTotalSupply, GasBalanceOf, GasAllowance.
  split_names; split; intros H; try done; lia.
Qed.

(** A selector of the ABI finds its method, when the selectors of the ABI
    are distinct and four bytes long. *)
Lemma MethodById_of_member (a : abi.ABI) m arguments :
  NoDup (abi.ID <$> a) →
  m ∈ a →
  length (abi.ID m) = 4%nat →
  abi.MethodById a (abi.ID m ++ arguments) = Some m.
Proof.
  intros Hnodup Hin Hlen. unfold abi.MethodById.
  rewrite length_app, Hlen. rewrite (proj2 (Z.ltb_ge _ _)) by lia.
  rewrite <- Hlen, take_app_length.
  induction a as [|m' a IH]; [by apply elem_of_nil in Hin|].
  simpl. rewrite fmap_cons in Hnodup. apply NoDup_cons in Hnodup as [Hhead Htail].
  case_bool_decide as Hid.
  - apply elem_of_cons in Hin as [->|Hin]; [done|].
    destruct Hhead. rewrite Hid. apply list_elem_of_fmap. by exists m.
  - apply elem_of_cons in Hin as [->|Hin]; [done|]. by apply IH.
Qed.

(** The names of the switch are distinct (see [IsTransaction_partitions_names]
    for why). *)
Hypothesis dispatch_distinct : NoDup dispatchNames.

(** X14: a call packed for a method of the ABI (its selector, then the
    encoded arguments) is priced by the method's name, whatever the
    arguments are: it costs what the gas table records for the name. *)
Theorem RequiredGas_of_packed_call p m arguments cost :
  NoDup (abi.ID <$> ABI p) →
  m ∈ ABI p →
  length (abi.ID m) = 4%nat →
  gasCost (abi.Name m) = Some cost →
  RequiredGas p (abi.ID m ++ arguments) = cost.
Proof.
  intros Hnodup Hin Hlen Hcost.
  apply (RequiredGas_recorded dispatch_distinct) with (m := m); [| |done].
  - rewrite length_app. lia.
  - rewrite <- Hlen, take_app_length.
    rewrite <- (app_nil_r (abi.ID m)) at 1. by apply MethodById_of_member.
Qed.

End DispatcherCoverage.

(** ** More on the execution bridge *)

Section BridgeCoverage.
Import ERC20.
Context {names : MethodNames} {Ledger Snapshot : Type}.
Context {collab : Collaborators Ledger Snapshot}.
Implicit Types (st : State Ledger) (s : Setup Snapshot) (m : abi.Method).

Ltac split_names :=
  repeat (match goal with
          | |- context [String.eqb ?a ?b] => destruct (String.eqb a b)
          end; simpl).

Ltac in_list :=
  solve [repeat first [apply list_elem_of_here | apply list_elem_of_further]].

(** X15: a method that [IsTransaction] calls a query is never handed to a
    handler of a transaction: [HandleMethod] answers with one of the seven
    query handlers or with the unknown-method error.  And a method it calls
    a transaction is handed to one of the nine transaction handlers. *)
Theorem HandleMethod_respects_IsTransaction st m arguments :
  (IsTransaction m = false →
   HandleMethod st m arguments
   ∈ [ Name st m arguments; Symbol st m arguments; Decimals st m arguments;
       TotalSupply st m arguments; BalanceOf st m arguments;
       Owner st m arguments; Allowance st m arguments;
       (Returned (None, Some (ErrUnknownMethod (abi.Name m))), st) ])
  ∧ (IsTransaction m = true →
     HandleMethod st m arguments
     ∈ [ Transfer st m arguments; TransferFrom st m arguments;
         Approve st m arguments; IncreaseAllowance st m arguments;
         DecreaseAllowance st m arguments; Mint st m arguments;
         ExecuteBurn st m arguments; BurnFrom st m arguments;
         TransferOwnership st m arguments ]).
Proof.
  unfold IsTransaction, HandleMethod.
  split_names; split; intros H; try done; in_list.
Qed.

(** X16: a name that is none of the sixteen of the switch is an unknown
    method: no handler runs and the state stays as it is; through [Run] the
    call ends with that error in the state call setup left, so the
    contract is charged nothing. *)
Theorem unknown_names_are_rejected :
  (∀ st m arguments,
     abi.Name m ∉ dispatchNames →
     HandleMethod st m arguments
     = (Returned (None, Some (ErrUnknownMethod (abi.Name m))), st))
  ∧ (∀ st readOnly s st1,
       vm.Value (snd st) ≤ 0 →
       RunSetup st readOnly IsTransaction = (Returned (inr s), st1) →
       abi.Name (method s) ∉ dispatchNames →
       Run st readOnly
       = (Returned (None, Some (ErrUnknownMethod (abi.Name (method s)))), st1)).
Proof.
  assert (Hhandle : ∀ st m arguments,
     abi.Name m ∉ dispatchNames →
     HandleMethod st m arguments
     = (Returned (None, Some (ErrUnknownMethod (abi.Name m))), st)).
  { intros st m arguments Hout. unfold HandleMethod.
    repeat match goal with
    | |- context [String.eqb (abi.Name m) ?b] =>
        let E := fresh "E" in
        destruct (String.eqb_spec (abi.Name m) b) as [E|_];
        [exfalso; apply Hout; unfold dispatchNames; rewrite E; in_list|]
    end.
    done. }
  split; [exact Hhandle|].
  intros st readOnly s st1 Hvalue Hsetup Hout.
  assert (Hsgn : (Z.sgn (vm.Value (snd st)) =? 1) = false).
  { apply Z.eqb_neq. lia. }
  unfold Run. by rewrite Hsgn, Hsetup, (Hhandle _ _ _ Hout).
Qed.

(** X17: an error of call setup or of the handler ends [Run] at once: the
    error is returned without bytes (also when the handler returned some),
    the contract is charged nothing and no journal entry is added: the
    state is the one the failing step left. *)
Theorem Run_stops_at_the_first_error st readOnly :
  vm.Value (snd st) ≤ 0 →
  (∀ err st1,
     RunSetup st readOnly IsTransaction = (Returned (inl err), st1) →
     Run st readOnly = (Returned (None, Some err), st1))
  ∧ (∀ s st1 bz err st2,
       RunSetup st readOnly IsTransaction = (Returned (inr s), st1) →
       HandleMethod st1 (method s) (args s) = (Returned (bz, Some err), st2) →
       Run st readOnly = (Returned (None, Some err), st2)).
Proof.
  intros Hvalue.
  assert (Hsgn : (Z.sgn (vm.Value (snd st)) =? 1) = false).
  { apply Z.eqb_neq. lia. }
  split.
  - intros err st1 Hsetup. unfold Run. by rewrite Hsgn, Hsetup.
  - intros s st1 bz err st2 Hsetup Hhandler. unfold Run.
    by rewrite Hsgn, Hsetup, Hhandler.
Qed.

(** X18: [Run] returns without error only when every step went through:
    no value attached, call setup and the handler succeeded, the
    contract's gas covered the cost and was reduced by it, and the journal
    entries were added; the bytes are then the handler's. *)
Theorem Run_success_means_all_steps_succeeded st readOnly bz st' :
  Run st readOnly = (Returned (bz, None), st') →
  vm.Value (snd st) ≤ 0
  ∧ ∃ s st1 st2,
      RunSetup st readOnly IsTransaction = (Returned (inr s), st1)
      ∧ HandleMethod st1 (method s) (args s) = (Returned (bz, None), st2)
      ∧ sub64 (GasConsumed (fst st2)) (initialGas s) ≤ vm.Gas (snd st2)
      ∧ AddJournalEntries
          (fst st2,
           vm.setGas (snd st2)
             (vm.Gas (snd st2) - sub64 (GasConsumed (fst st2)) (initialGas s)))
          (snapshot s)
        = (Returned None, st').
Proof.
  unfold Run.
  destruct (Z.eqb_spec (Z.sgn (vm.Value (snd st))) 1) as [|Hsgn]; [done|].
  intros Hrun. split; [lia|].
  destruct (RunSetup st readOnly IsTransaction) as [[[err|s]|f] st1] eqn:Hsetup;
    [done| |done].
  destruct (HandleMethod st1 (method s) (args s)) as [[[bz' [err|]]|f] st2]
    eqn:Hhandler; [done| |by destruct f].
  unfold vm.UseGas in Hrun.
  destruct (Z.ltb_spec (vm.Gas (snd st2))
              (sub64 (GasConsumed (fst st2)) (initialGas s))) as [|Hcovers];
    [done|].
  destruct (AddJournalEntries _ (snapshot s)) as [[[err|]|f] st3] eqn:Hjournal;
    [done| |by destruct f].
  injection Hrun as Hbz Hst. subst bz' st3. by exists s, st1, st2.
Qed.

(** X19: an out-of-gas panic of the ledger does not leave [Run]: when the
    handler panics with it, [Run] returns the out-of-gas error without
    bytes; and [Run] panics with it only when call setup, which runs before
    the deferred conversion is installed, did. *)
Theorem Run_converts_out_of_gas_panics st readOnly :
  (∀ s st1 descriptor st2,
     vm.Value (snd st) ≤ 0 →
     RunSetup st readOnly IsTransaction = (Returned (inr s), st1) →
     HandleMethod st1 (method s) (args s)
     = (Panicked (ErrorOutOfGas descriptor), st2) →
     Run st readOnly
     = (Returned (None, Some ErrOutOfGas), recoverGasError st2 (initialGas s)))
  ∧ (∀ descriptor st',
       Run st readOnly = (Panicked (ErrorOutOfGas descriptor), st') →
       RunSetup st readOnly IsTransaction
       = (Panicked (ErrorOutOfGas descriptor), st')).
Proof.
  split.
  - intros s st1 descriptor st2 Hvalue Hsetup Hhandler.
    assert (Hsgn : (Z.sgn (vm.Value (snd st)) =? 1) = false).
    { apply Z.eqb_neq. lia. }
    unfold Run. by rewrite Hsgn, Hsetup, Hhandler.
  - intros descriptor st'. unfold Run.
    destruct (Z.sgn (vm.Value (snd st)) =? 1); [done|].
    destruct (RunSetup st readOnly IsTransaction) as [[[err|s]|f] st1];
      [done| |by intros [= -> ->]].
    destruct (HandleMethod st1 (method s) (args s)) as [[[bz' [err|]]|f] st2];
      [done| |by destruct f].
    destruct (vm.UseGas _ _) as [[] contract']; [|done].
    destruct (AddJournalEntries _ (snapshot s)) as [[[err|]|f] st3];
      [done|done|by destruct f].
Qed.

End BridgeCoverage.

Section RoutingCoverage.
Import ERC20.
Context {names : MethodNames} {Ledger Snapshot : Type}.
Context {collab : Collaborators Ledger Snapshot}.
Implicit Types (st : State Ledger) (m : abi.Method).

Hypothesis dispatch_distinct : NoDup dispatchNames.

Ltac in_list :=
  solve [repeat first [apply list_elem_of_here | apply list_elem_of_further]].

Ltac names_clash E :=
  let Hd := fresh "Hd" in
  pose proof dispatch_distinct as Hd; unfold dispatchNames in Hd;
  rewrite E in Hd;
  solve [repeat (let Hn := fresh "Hn" in
                 apply NoDup_cons in Hd as [Hn Hd]; try (apply Hn; in_list))].

Ltac route E :=
  unfold HandleMethod; rewrite E;
  repeat match goal with
  | |- context [String.eqb ?a ?a] => rewrite (String.eqb_refl a)
  | |- context [String.eqb ?a ?b] =>
      let E' := fresh "E" in
      destruct (String.eqb_spec a b) as [E'|?]; [exfalso; names_clash E'|]
  end;
  reflexivity.

(** X20: [HandleMethod] hands each of the sixteen names to the handler of
    that name and returns what the handler returns; the burn method goes
    to [ExecuteBurn]. *)
Theorem HandleMethod_routes_by_name st m arguments :
  (abi.Name m = TransferMethod →
   HandleMethod st m arguments = Transfer st m arguments)
  ∧ (abi.Name m = TransferFromMethod →
     HandleMethod st m arguments = TransferFrom st m arguments)
  ∧ (abi.Name m = ApproveMethod →
     HandleMethod st m arguments = Approve st m arguments)
  ∧ (abi.Name m = IncreaseAllowanceMethod →
     HandleMethod st m arguments = IncreaseAllowance st m arguments)
  ∧ (abi.Name m = DecreaseAllowanceMethod →
     HandleMethod st m arguments = DecreaseAllowance st m arguments)
  ∧ (abi.Name m = MintMethod →
     HandleMethod st m arguments = Mint st m arguments)
  ∧ (abi.Name m = BurnMethod →
     HandleMethod st m arguments = ExecuteBurn st m arguments)
  ∧ (abi.Name m = BurnFromMethod →
     HandleMethod st m arguments = BurnFrom st m arguments)
  ∧ (abi.Name m = TransferOwnershipMethod →
     HandleMethod st m arguments = TransferOwnership st m arguments)
  ∧ (abi.Name m = NameMethod →
     HandleMethod st m arguments = Name st m arguments)
  ∧ (abi.Name m = SymbolMethod →
     HandleMethod st m arguments = Symbol st m arguments)
  ∧ (abi.Name m = DecimalsMethod →
     HandleMethod st m arguments = Decimals st m arguments)
  ∧ (abi.Name m = TotalSupplyMethod →
     HandleMethod st m arguments = TotalSupply st m arguments)
  ∧ (abi.Name m = BalanceOfMethod →
     HandleMethod st m arguments = BalanceOf st m arguments)
  ∧ (abi.Name m = OwnerMethod →
     HandleMethod st m arguments = Owner st m arguments)
  ∧ (abi.Name m = AllowanceMethod →
     HandleMethod st m arguments = Allowance st m arguments).
Proof.
  repeat split; intros E; route E.
Qed.

End RoutingCoverage.

(** ** More worked examples on the reference instance *)

Section CoverageExamples.
Import ERC20 Reference.

(** *** The registry *)

Lemma Precompiles_returns_restriction_witness :
  <[2 := "sha256"]> (<[1 := "ecrecover"]> (<[2 := "sha256"]> ∅))
  ⊆ Keeper.precompiles registry.
Proof.
  apply (Precompiles_returns_restriction registry [2; 1; 2]). reflexivity.
Defined.

Lemma Precompiles_ignores_order_and_repeats_witness :
  Keeper.Precompiles registry [1; 2]
  = Returned (<[2 := "sha256"]> (<[1 := "ecrecover"]> (<[2 := "sha256"]> ∅))).
Proof.
  apply (Precompiles_ignores_order_and_repeats registry [2; 1; 2] [1; 2]).
  - intros a. rewrite !elem_of_cons, elem_of_nil. tauto.
  - reflexivity.
Defined.

Lemma Precompiles_of_all_registered_witness :
  Keeper.Precompiles registry [1; 2] = Returned (Keeper.precompiles registry).
Proof.
  apply (Precompiles_of_all_registered registry [1; 2]).
  intros a. rewrite !elem_of_cons, elem_of_nil. unfold registry. simpl.
  destruct (decide (a = 1)) as [->|H1].
  { rewrite lookup_insert_eq. split; [by eexists|by left]. }
  rewrite lookup_insert_ne by done.
  destruct (decide (a = 2)) as [->|H2].
  { rewrite lookup_insert_eq. split; [by eexists|by right; left]. }
  rewrite lookup_insert_ne by done. rewrite lookup_empty.
  split; [by intros [?|[?|[]]]|by intros [? ?]].
Defined.

Lemma AvailablePrecompiles_is_a_copy_witness :
  ∃ r h', Keeper.AvailablePrecompiles liveMaps 1%positive = (r, h')
          ∧ r ≠ 1%positive
          ∧ h' !! r = Some (Keeper.precompiles registry)
          ∧ Keeper.assign h' r 10 "custom" !! 1%positive
            = Some (Keeper.precompiles registry).
Proof.
  destruct (AvailablePrecompiles_is_a_copy liveMaps 1%positive)
    as (r & h' & Hrun & Hfresh & Hcopy & _ & Hassign).
  - unfold liveMaps. rewrite dom_singleton_L. by apply elem_of_singleton.
  - exists r, h'. split; [exact Hrun|]. split.
    + intros ->. apply Hfresh. unfold liveMaps. rewrite dom_singleton_L.
      by apply elem_of_singleton.
    + split; [by rewrite Hcopy|].
      exact (eq_trans (proj1 (Hassign 10 "custom")) eq_refl).
Defined.

(** *** The pre-transfer check *)

Lemma CanTransfer_without_value_witness :
  Ante.CanTransfer canMove tt (message 10 0) (Some 10) tt tt true
  = Ante.CanTransfer (fun _ _ _ _ _ => false) tt (message 10 0) (Some 10) tt tt true.
Proof.
  apply (CanTransfer_without_value_skips_transfer_check canMove tt (message 10 0)).
  simpl. lia.
Defined.

Lemma CanTransfer_fee_error_is_antitone_witness :
  ∃ e, Ante.CanTransfer canMove tt (message 5 0) (Some 10) tt tt true
       = Returned (Some e)
       ∧ Ante.sentinel e = Ante.ErrInsufficientFee.
Proof.
  apply (CanTransfer_fee_error_is_antitone_in_fee_cap canMove tt (message 5 0)
           (Some 10) tt tt true 7
           (Ante.Wrapf Ante.ErrInsufficientFee
              "max fee per gas less than block base fee (%s < %s)"
              [Ante.ABig (Some 7); Ante.ABig (Some 10)])).
  - simpl. lia.
  - reflexivity.
  - reflexivity.
Defined.

(** *** The dispatcher *)

Lemma erc20ABI_selectors_distinct : NoDup (abi.ID <$> erc20ABI).
Proof. apply (bool_decide_unpack _). vm_compute. reflexivity. Defined.

Lemma RequiredGas_separates_witness :
  RequiredGas (names := abiNames) precompile nameSelector ≤ 3464.
Proof.
  apply (RequiredGas_separates_transactions_from_queries (names := abiNames)
           precompile nameSelector nameMethod).
  - simpl. lia.
  - reflexivity.
  - reflexivity.
Defined.

Lemma RequiredGas_of_packed_call_witness :
  RequiredGas (names := abiNames) precompile
    (transferSelector ++ [Byte.x00; Byte.x2a]) = 3000000.
Proof.
  apply (RequiredGas_of_packed_call (names := abiNames) abiNames_distinct
           precompile transferMethod [Byte.x00; Byte.x2a] 3000000).
  - exact erc20ABI_selectors_distinct.
  - unfold precompile, erc20ABI. simpl.
    do 7 apply list_elem_of_further. apply list_elem_of_here.
  - reflexivity.
  - reflexivity.
Defined.

(** *** The bridge *)

Lemma unknown_names_are_rejected_witness :
  HandleMethod (names := abiNames) (collab := refCollaborators 1000)
    ((emptyLedger, 5), call burn0Selector 0 50) burn0Method []
  = (Returned (None, Some (ErrUnknownMethod "burn0")),
     ((emptyLedger, 5), call burn0Selector 0 50)).
Proof.
  apply (proj1 (unknown_names_are_rejected (names := abiNames)
                  (collab := refCollaborators 1000))).
  exact abiNames_burn0.
Defined.

Lemma Run_stops_at_the_first_error_witness :
  Run (names := abiNames) (collab := refCollaborators 1000)
      ((emptyLedger, 5), call unknownSelector 0 50) false
  = (Returned (None, Some (ErrOther "no method with id")),
     ((emptyLedger, 5), call unknownSelector 0 50)).
Proof.
  apply (Run_stops_at_the_first_error (names := abiNames)
           (collab := refCollaborators 1000)
           ((emptyLedger, 5), call unknownSelector 0 50) false).
  - simpl. lia.
  - reflexivity.
Defined.

Lemma Run_success_means_all_steps_succeeded_witness :
  vm.Value (call nameSelector 0 50) ≤ 0
  ∧ ∃ s st1 st2,
      RunSetup (Collaborators := refCollaborators 1000)
        ((emptyLedger, 5), call nameSelector 0 50) false
        (IsTransaction (names := abiNames))
      = (Returned (inr s), st1)
      ∧ HandleMethod (names := abiNames) (collab := refCollaborators 1000)
          st1 (method s) (args s)
        = (Returned (Some [Byte.x78], None), st2).
Proof.
  destruct (Run_success_means_all_steps_succeeded (names := abiNames)
              (collab := refCollaborators 1000)
              ((emptyLedger, 5), call nameSelector 0 50) false
              (Some [Byte.x78]) ((emptyLedger, 15), call nameSelector 0 40))
    as (Hvalue & s & st1 & st2 & Hsetup & Hhandler & _).
  - reflexivity.
  - split; [exact Hvalue|]. exists s, st1, st2. split; [exact Hsetup|exact Hhandler].
Defined.

Lemma Run_converts_out_of_gas_panics_witness :
  Run (names := abiNames) (collab := refCollaborators 12)
      ((emptyLedger, 5), call nameSelector 0 50) false
  = (Returned (None, Some ErrOutOfGas), ((emptyLedger, 12), call nameSelector 0 50)).
Proof.
  apply (proj1 (Run_converts_out_of_gas_panics (names := abiNames)
                  (collab := refCollaborators 12)
                  ((emptyLedger, 5), call nameSelector 0 50) false))
    with (s := {| snapshot := emptyLedger; method := nameMethod;
                  initialGas := 5; args := [] |})
         (st1 := ((emptyLedger, 5), call nameSelector 0 50))
         (descriptor := "handler").
  - simpl. lia.
  - reflexivity.
  - reflexivity.
Defined.

Lemma HandleMethod_routes_by_name_witness :
  HandleMethod (names := abiNames) (collab := refCollaborators 1000)
    ((funded, 0), by_ 1) burnMethod [VBigInt 100]
  = ExecuteBurn (Collaborators := refCollaborators 1000)
      ((funded, 0), by_ 1) burnMethod [VBigInt 100].
Proof.
  destruct (HandleMethod_routes_by_name (names := abiNames)
              (collab := refCollaborators 1000) abiNames_distinct
              ((funded, 0), by_ 1) burnMethod [VBigInt 100])
    as (_ & _ & _ & _ & _ & _ & Hburn & _).
  apply Hburn. reflexivity.
Defined.

End CoverageExamples.

(** ** The cases of tx_test.go on the handlers

    Each example runs the cases of one test of tx_test.go, in the order of
    the test, on the state the test sets up, and states the outcome the
    test expects. *)

Section TestCases.
Import ERC20 Reference.

(** [TestTransfer]: [key0] holds 1e18 xmpl and calls. *)
Example TestTransfer_cases :
  let l := prefund key0 (10 ^ 18) (suiteLedger key0) in
  let run args := Tx.Transfer "xmpl" (by_ key0) transferMethod args l in
  fst (run [VAddress toAddr; VBigInt (-1)]) = inl (ErrCoinNotPositive (-1) "xmpl")
  ∧ Tx.coinErrorText (ErrCoinNotPositive (-1) "xmpl")
    = Some "coin -1xmpl amount is not positive"
  ∧ fst (run [VString ""; VBigInt 100]) = inl (ErrInvalidAddress "to")
  ∧ fst (run [VAddress toAddr; VString ""]) = inl ErrInvalidAmount
  ∧ fst (run [VAddress toAddr; VBigInt (2 * 10 ^ 18)])
    = inl ErrTransferAmountExceedsBalance
  ∧ fst (run [VAddress toAddr; VBigInt 100]) = inr Tx.packTrue
  ∧ Tx.GetBalance (snd (run [VAddress toAddr; VBigInt 100])) toAddr "xmpl" = 100.
Proof. vm_compute. repeat split. Qed.

(** [TestTransferFrom]: [key0] holds 1e18 xmpl, [key1] calls. *)
Example TestTransferFrom_cases :
  let l := prefund key0 (10 ^ 18) (suiteLedger key0) in
  let run l args := Tx.TransferFrom "xmpl" (by_ key1) transferFromMethod args l in
  fst (run l [VAddress key0; VAddress toAddr; VBigInt (-1)])
  = inl (ErrCoinNotPositive (-1) "xmpl")
  ∧ fst (run l [VString ""; VAddress toAddr; VBigInt 100])
    = inl (ErrInvalidAddress "from")
  ∧ fst (run l [VAddress key0; VString ""; VBigInt 100])
    = inl (ErrInvalidAddress "to")
  ∧ fst (run l [VAddress key0; VAddress toAddr; VString ""]) = inl ErrInvalidAmount
  ∧ fst (run l [VAddress key0; VAddress toAddr; VBigInt 100])
    = inl ErrInsufficientAllowance
  ∧ fst (run (saveGrant key0 key1 (5 * 10 ^ 18) l)
           [VAddress key0; VAddress toAddr; VBigInt (2 * 10 ^ 18)])
    = inl ErrTransferAmountExceedsBalance
  ∧ (let r := run (saveGrant key0 key1 300 l)
                [VAddress key0; VAddress toAddr; VBigInt 100] in
     fst r = inr Tx.packTrue ∧ Tx.GetBalance (snd r) toAddr "xmpl" = 100)
  ∧ (let r := run (prefund key1 (10 ^ 18) l)
                [VAddress key1; VAddress toAddr; VBigInt 100] in
     fst r = inr Tx.packTrue ∧ Tx.GetBalance (snd r) toAddr "xmpl" = 100).
Proof. vm_compute. repeat split. Qed.

(** [TestMint]: [key0] calls and, but for the fourth case, owns the token
    pair. *)
Example TestMint_cases :
  let run pairOwner args :=
    Tx.Mint "xmpl" (by_ key0) mintMethod args
      (prefund key0 (10 ^ 18) (suiteLedger pairOwner)) in
  fst (run key0 [VAddress toAddr; VBigInt (-1)]) = inl (ErrInvalidCoins (-1) "xmpl")
  ∧ Tx.coinErrorText (ErrInvalidCoins (-1) "xmpl") = Some "-1xmpl: invalid coins"
  ∧ fst (run key0 [VString ""; VBigInt 100]) = inl (ErrInvalidAddress "to")
  ∧ fst (run key0 [VAddress toAddr; VString ""]) = inl ErrInvalidAmount
  ∧ fst (run 9 [VAddress key1; VBigInt 100]) = inl ErrMinterIsNotOwner
  ∧ fst (run key0 [VAddress key1; VBigInt 100]) = inr []
  ∧ Tx.GetBalance (snd (run key0 [VAddress key1; VBigInt 100])) key1 "xmpl" = 100.
Proof. vm_compute. repeat split. Qed.

(** [TestBurnFrom]: [key0] calls and owns the token pair, [key1] holds 100
    xmpl. *)
Example TestBurnFrom_cases :
  let l := prefund key1 100 (suiteLedger key0) in
  let run l args := Tx.BurnFrom "xmpl" (by_ key0) burnFromMethod args l in
  fst (run l []) = inl (ErrInvalidNumberOfArgs 2 0)
  ∧ fst (run l [VString "invalid"; VBigInt 100]) = inl (ErrInvalidAddress "from")
  ∧ fst (run l [VAddress key0; VString "invalid"]) = inl ErrInvalidAmount
  ∧ fst (run l [VAddress key0; VBigInt 100]) = inl ErrSubtractMoreThanAllowance
  ∧ fst (run (saveGrant key0 key1 1 l) [VAddress key0; VBigInt 100])
    = inl ErrSubtractMoreThanAllowance
  ∧ (let r := run (saveGrant key1 key0 101 l) [VAddress key1; VBigInt 100] in
     fst r = inr [] ∧ Tx.GetBalance (snd r) key1 "xmpl" = 0).
Proof. vm_compute. repeat split. Qed.

End TestCases.
